(** * gowiki: a file-backed wiki server (wiki.go)

    A shallow embedding of [wiki.go] and of the parts of the Go standard
    library it calls ([regexp], [os], [net/http], [html/template]), followed by
    the properties of the save/load pipeline and of the three request
    handlers.

    Go strings are byte strings and are modelled by [string]; a [[]byte] is a
    [list byte].  The file system and the response writer are explicit states
    that every function takes and returns. *)

From Stdlib Require Import ZArith Lia.
From Stdlib.Strings Require Import Ascii String Byte.
From stdpp Require Import gmap strings list.

Open Scope Z_scope.
Open Scope string_scope.

(** ** Strings *)

Module Str.

(** The line feed that [fmt.Fprintln] appends, and the double quote. *)
Definition nl : string := String "010"%char "".
Definition dquote : string := String "034"%char "".

(** [strip_prefix l s] is the rest of [s] after the literal [l], as
    [strings.CutPrefix] gives it. *)
Fixpoint strip_prefix (l s : string) : option string :=
  match l with
  | EmptyString => Some s
  | String a l' =>
      match s with
      | String b s' => if Ascii.eqb a b then strip_prefix l' s' else None
      | EmptyString => None
      end
  end.

(** The first [n] bytes of [s]. *)
Fixpoint take (n : nat) (s : string) : string :=
  match n, s with
  | S n', String c s' => String c (take n' s')
  | _, _ => EmptyString
  end.

(** The text between two positions of one scan: [s] is the input at the first
    position and [s'] the input left at the second. *)
Definition consumed (s s' : string) : string :=
  take (String.length s - String.length s') s.

(** Every byte of [s] satisfies [p]. *)
Fixpoint all (p : ascii -> bool) (s : string) : bool :=
  match s with
  | EmptyString => true
  | String c s' => p c && all p s'
  end.

(** The byte [c] occurs in [s]. *)
Fixpoint occurs (c : ascii) (s : string) : bool :=
  match s with
  | EmptyString => false
  | String d s' => Ascii.eqb c d || occurs c s'
  end.

End Str.

(** ** Package regexp

    The fragment of RE2 syntax that [validPath] uses.  A pattern written
    between [^] and [$] (no flags) matches a text only as a whole, so the
    anchors are not constructors: [FindStringSubmatch] below is the matcher of
    an anchored pattern. *)

Module Regexp.

Inductive regex : Type :=
| Lit (s : string)                          (* literal text *)
| Cat (r1 r2 : regex)                       (* r1r2 *)
| Alt (r1 r2 : regex)                       (* r1|r2 *)
| Group (r : regex)                         (* (r), capturing *)
| ClassPlus (ranges : list (ascii * ascii)) (* [lo-hi...]+ *).

(** Membership of a byte in a bracket expression made of ranges. *)
Definition in_class (ranges : list (ascii * ascii)) (c : ascii) : bool :=
  existsb (fun '(lo, hi) =>
             (Ascii.nat_of_ascii lo <=? Ascii.nat_of_ascii c)%nat
             && (Ascii.nat_of_ascii c <=? Ascii.nat_of_ascii hi)%nat) ranges.

(** The language of a pattern. *)
Inductive matches : regex -> string -> Prop :=
| m_lit s : matches (Lit s) s
| m_cat r1 r2 s1 s2 :
    matches r1 s1 -> matches r2 s2 -> matches (Cat r1 r2) (s1 +:+ s2)
| m_alt_l r1 r2 s : matches r1 s -> matches (Alt r1 r2) s
| m_alt_r r1 r2 s : matches r2 s -> matches (Alt r1 r2) s
| m_group r s : matches r s -> matches (Group r) s
| m_plus_one rs c :
    in_class rs c = true -> matches (ClassPlus rs) (String c "")
| m_plus_more rs c s :
    in_class rs c = true -> matches (ClassPlus rs) s ->
    matches (ClassPlus rs) (String c s).

(** [x+] on a class, greedy: take a byte, prefer taking more, fall back to
    stopping here. *)
Fixpoint greedy {A} (rs : list (ascii * ascii)) (s : string)
    (k : string -> option A) : option A :=
  match s with
  | String c s' =>
      if in_class rs c
      then match greedy rs s' k with
           | Some m => Some m
           | None => k s'
           end
      else None
  | EmptyString => None
  end.

(** Backtracking matcher in continuation-passing style, leftmost-first as in
    Go.  [cs] holds the submatches: a group takes the next slot when it
    opens and fills it when it closes. *)
Fixpoint run (r : regex) (s : string) (cs : list string)
    (k : string -> list string -> option (list string))
    : option (list string) :=
  match r with
  | Lit l =>
      match Str.strip_prefix l s with
      | Some s' => k s' cs
      | None => None
      end
  | Cat r1 r2 => run r1 s cs (fun s' cs' => run r2 s' cs' k)
  | Alt r1 r2 =>
      match run r1 s cs k with
      | Some m => Some m
      | None => run r2 s cs k
      end
  | Group r1 =>
      let i := length cs in
      run r1 s (cs ++ [""]) (fun s' cs' => k s' (<[i := Str.consumed s s']> cs'))
  | ClassPlus rs => greedy rs s (fun s' => k s' cs)
  end.

(** The final continuation of an anchored pattern: the whole text is used. *)
Definition at_end (s : string) (cs : list string) : option (list string) :=
  match s with
  | EmptyString => Some cs
  | String _ _ => None
  end.

(** [re.FindStringSubmatch(s)] for the pattern [^r$]: [None] is Go's nil
    slice; otherwise element 0 is the whole match and element [i] the text of
    the [i]-th group. *)
Definition FindStringSubmatch (r : regex) (s : string) : option (list string) :=
  run r s [s] at_end.

End Regexp.

Import Regexp.

(** [var validPath = regexp.MustCompile("^/(edit|save|view)/([a-zA-Z0-9]+)$")] *)
Definition alnum_ranges : list (ascii * ascii) :=
  [("a"%char, "z"%char); ("A"%char, "Z"%char); ("0"%char, "9"%char)].

Definition validPath : regex :=
  Cat (Lit "/")
      (Cat (Group (Alt (Lit "edit") (Alt (Lit "save") (Lit "view"))))
           (Cat (Lit "/") (Group (ClassPlus alnum_ranges)))).

(** Titles in the sense of [^[a-zA-Z0-9]+$], and the same as a test. *)
Definition alnum (t : string) : Prop := matches (ClassPlus alnum_ranges) t.

Definition alnumb (t : string) : bool :=
  negb (String.eqb t "") && Str.all (in_class alnum_ranges) t.

(** The operation names of the first group. *)
Definition is_op (op : string) : Prop := op = "edit" \/ op = "save" \/ op = "view".

(** ** Go's error values *)

Module Errors.

(** The [syscall.Errno] values the file operations of this program meet,
    with the text of their [Error] method. *)
Inductive Errno : Type := ENOENT | EACCES | EISDIR | ENAMETOOLONG.

Definition Errno_Error (e : Errno) : string :=
  match e with
  | ENOENT => "no such file or directory"
  | EACCES => "permission denied"
  | EISDIR => "is a directory"
  | ENAMETOOLONG => "file name too long"
  end.

(** Values of the interface [error]: what [errors.New] builds, and the
    [*fs.PathError] that package [os] returns. *)
Inductive error : Type :=
| errorString (s : string)
| PathError (Op Path : string) (Err : Errno).

Definition Error (e : error) : string :=
  match e with
  | errorString s => s
  | PathError op path err => op +:+ " " +:+ path +:+ ": " +:+ Errno_Error err
  end.

Definition New (text : string) : error := errorString text.

(** A Go result pair [(v, err)] in which exactly one side is meaningful. *)
Inductive result (A : Type) : Type :=
| Ok (a : A)
| Err (e : error).
Arguments Ok {A} a.
Arguments Err {A} e.

End Errors.

Import Errors.

(** ** Package os: the working directory of the server

    The directory is a finite map from entry names to nodes.  Its entries are
    regular files and directories, each under one name: symbolic links, hard
    links and other names of the same file (as [./Foo.txt] is of [Foo.txt])
    are outside this model, and nothing below speaks of a directory that
    holds them.  The server runs as the unprivileged owner of the entries, so
    the owner bits of a file mode decide what it may do.  Every call of
    [os.ReadFile] and [os.WriteFile] is recorded in [trace]. *)

Module OS.

Inductive node : Type :=
| RegularFile (mode : Z) (data : list byte)
| Directory.

Inductive syscall : Type :=
| SysReadFile (name : string)
| SysWriteFile (name : string) (data : list byte) (perm : Z).

Record World : Type := mkWorld {
  files : gmap string node;
  umask : Z;
  dir_writable : bool;      (* may the server create entries here *)
  trace : list syscall
}.

(** Permission bits, in octal in the Go source. *)
Definition o600 : Z := 6 * 64.
Definition o400 : Z := 4 * 64.
Definition o200 : Z := 2 * 64.
Definition o077 : Z := 7 * 8 + 7.
Definition o644 : Z := 6 * 64 + 4 * 8 + 4.
Definition o022 : Z := 2 * 8 + 2.

(** The longest name of a directory entry, in bytes.  No entry has a longer
    name, and opening one fails with ENAMETOOLONG. *)
Definition NAME_MAX : nat := 255.

Definition name_fits (name : string) : bool :=
  (String.length name <=? NAME_MAX)%nat.

Definition owner_may_read (mode : Z) : bool := Z.testbit mode 8.
Definition owner_may_write (mode : Z) : bool := Z.testbit mode 7.

(** Group and others have no access at all. *)
Definition owner_only (mode : Z) : Prop := Z.land mode o077 = 0.

Definition record (c : syscall) (W : World) : World :=
  mkWorld (files W) (umask W) (dir_writable W) (trace W ++ [c]).

Definition set_files (fs : gmap string node) (W : World) : World :=
  mkWorld fs (umask W) (dir_writable W) (trace W).

(** [os.WriteFile(name, data, perm)]: "If the file does not exist, WriteFile
    creates it with permissions perm (before umask); otherwise WriteFile
    truncates it before writing, without changing permissions."  Failures are
    those of opening the file. *)
Definition WriteFile (name : string) (data : list byte) (perm : Z) (W : World)
    : World * option error :=
  let W1 := record (SysWriteFile name data perm) W in
  match files W !! name with
  | Some Directory => (W1, Some (PathError "open" name EISDIR))
  | Some (RegularFile mode _) =>
      if owner_may_write mode
      then (set_files (<[name := RegularFile mode data]> (files W)) W1, None)
      else (W1, Some (PathError "open" name EACCES))
  | None =>
      if negb (name_fits name)
      then (W1, Some (PathError "open" name ENAMETOOLONG))
      else if dir_writable W
      then (set_files (<[name := RegularFile (Z.ldiff perm (umask W)) data]> (files W)) W1,
            None)
      else (W1, Some (PathError "open" name EACCES))
  end.

(** [os.ReadFile(name)]: the whole content of the named file. *)
Definition ReadFile (name : string) (W : World) : World * result (list byte) :=
  let W1 := record (SysReadFile name) W in
  match files W !! name with
  | None =>
      if negb (name_fits name)
      then (W1, Err (PathError "open" name ENAMETOOLONG))
      else (W1, Err (PathError "open" name ENOENT))
  | Some Directory => (W1, Err (PathError "read" name EISDIR))
  | Some (RegularFile mode data) =>
      if owner_may_read mode
      then (W1, Ok data)
      else (W1, Err (PathError "open" name EACCES))
  end.

(** The mode of [name] once a write of permission [perm] has succeeded. *)
Definition mode_after (W : World) (name : string) (perm : Z) : Z :=
  match files W !! name with
  | Some (RegularFile mode _) => mode
  | _ => Z.ldiff perm (umask W)
  end.

(** The server may write [name]: an existing file needs the owner's write
    bit, a new one a name that fits and a writable directory. *)
Definition writable (W : World) (name : string) : bool :=
  match files W !! name with
  | Some Directory => false
  | Some (RegularFile mode _) => owner_may_write mode
  | None => name_fits name && dir_writable W
  end.

(** The file [name] exists and the server may read it. *)
Definition readable (W : World) (name : string) : Prop :=
  exists mode data,
    files W !! name = Some (RegularFile mode data) /\ owner_may_read mode = true.

End OS.

Import OS.

(** ** Package net/http *)

Module HTTP.

Definition StatusOK : Z := 200.
Definition StatusFound : Z := 302.
Definition StatusNotFound : Z := 404.
Definition StatusInternalServerError : Z := 500.

Definition StatusText (code : Z) : string :=
  if Z.eqb code 200 then "OK"
  else if Z.eqb code 302 then "Found"
  else if Z.eqb code 404 then "Not Found"
  else if Z.eqb code 500 then "Internal Server Error"
  else "".

(** The request as the handlers see it.  The form fields are kept by the
    place they came from, already decoded. *)
Record Request : Type := mkRequest {
  Method : string;
  URL_Path : string;                          (* r.URL.Path *)
  URL_Query : list (string * string);         (* fields of the query string *)
  Body_urlencoded : list (string * string);   (* fields of an application/x-www-form-urlencoded body *)
  Body_multipart : list (string * string)     (* value fields of a multipart/form-data body *)
}.


Definition reads_urlencoded_body (m : string) : bool :=
  String.eqb m "POST" || String.eqb m "PUT" || String.eqb m "PATCH".

(** [r.Form] once parsed: the urlencoded body (POST, PUT and PATCH only),
    then the query parameters, then the multipart body. *)
Definition Form (r : Request) : list (string * string) :=
  (if reads_urlencoded_body (Method r) then Body_urlencoded r else [])
    ++ URL_Query r ++ Body_multipart r.

Fixpoint first_value (key : string) (form : list (string * string)) : option string :=
  match form with
  | [] => None
  | (k, v) :: rest => if String.eqb k key then Some v else first_value key rest
  end.

(** [r.FormValue(key)]: the first value of [key], the empty string when the
    key is not present. *)
Definition FormValue (r : Request) (key : string) : string :=
  match first_value key (Form r) with
  | Some v => v
  | None => ""
  end.

(** An [http.ResponseWriter].  [header] is the map [w.Header()] returns.
    [sent] is the status line that went out and the headers the handler had
    set by then (nothing has gone out at [None]); what the server adds to
    them on its own (Date, Content-Length, a Content-Type found by sniffing
    the first bytes) is not recorded.  [body] is the bytes written,
    [superfluous] the status codes of the [WriteHeader] calls that came too
    late. *)
Record ResponseWriter : Type := mkResponseWriter {
  header : gmap string string;
  sent : option (Z * gmap string string);
  body : list byte;
  superfluous : list Z
}.

Definition newResponse : ResponseWriter := mkResponseWriter ∅ None [] [].

Definition Header_Set (key value : string) (w : ResponseWriter) : ResponseWriter :=
  mkResponseWriter (<[key := value]> (header w)) (sent w) (body w) (superfluous w).

Definition Header_Del (key : string) (w : ResponseWriter) : ResponseWriter :=
  mkResponseWriter (delete key (header w)) (sent w) (body w) (superfluous w).

(** [w.WriteHeader(code)]: only the first call sends a status line. *)
Definition WriteHeader (w : ResponseWriter) (code : Z) : ResponseWriter :=
  match sent w with
  | None => mkResponseWriter (header w) (Some (code, header w)) (body w) (superfluous w)
  | Some _ => mkResponseWriter (header w) (sent w) (body w) (superfluous w ++ [code])
  end.

(** [w.Write(data)]: "If WriteHeader has not yet been called, Write calls
    WriteHeader(http.StatusOK) before writing the data." *)
Definition Write (w : ResponseWriter) (data : list byte) : ResponseWriter :=
  let w1 := match sent w with
            | None => WriteHeader w StatusOK
            | Some _ => w
            end in
  mkResponseWriter (header w1) (sent w1) (body w1 ++ data) (superfluous w1).

(** [fmt.Fprintln(w, s)] *)
Definition Fprintln (w : ResponseWriter) (s : string) : ResponseWriter :=
  Write w (list_byte_of_string (s +:+ Str.nl)).

(** [http.Error(w, error, code)] *)
Definition Error (w : ResponseWriter) (error : string) (code : Z) : ResponseWriter :=
  let w1 := Header_Del "Content-Length" w in
  let w2 := Header_Set "Content-Type" "text/plain; charset=utf-8" w1 in
  let w3 := Header_Set "X-Content-Type-Options" "nosniff" w2 in
  Fprintln (WriteHeader w3 code) error.

(** [http.NotFound(w, r)] *)
Definition NotFound (w : ResponseWriter) (r : Request) : ResponseWriter :=
  Error w "404 page not found" StatusNotFound.

(** [http.Redirect(w, r, url, code)].  Both calls of the program pass an
    absolute path made of slashes, letters and digits; on such a URL the
    normalisation of the path and the escaping of the URL are the identity, so
    the URL is kept as given.  The short HTML body goes out only in answer
    to GET, and only when the handler set no Content-Type. *)
Definition Redirect (w : ResponseWriter) (r : Request) (url : string) (code : Z)
    : ResponseWriter :=
  let hadCT := bool_decide (is_Some (header w !! "Content-Type")) in
  let w1 := Header_Set "Location" url w in
  let w2 := if negb hadCT && (String.eqb (Method r) "GET" || String.eqb (Method r) "HEAD")
            then Header_Set "Content-Type" "text/html; charset=utf-8" w1
            else w1 in
  let w3 := WriteHeader w2 code in
  if negb hadCT && String.eqb (Method r) "GET"
  then Fprintln w3 ("<a href=" +:+ Str.dquote +:+ url +:+ Str.dquote +:+ ">"
                      +:+ StatusText code +:+ "</a>." +:+ Str.nl)
  else w3.

(** What the client receives: the status code (200 when the handler returned
    without sending one) and a header of the response. *)
Definition status (w : ResponseWriter) : Z :=
  match sent w with
  | Some (code, _) => code
  | None => StatusOK
  end.

Definition sent_header (w : ResponseWriter) (key : string) : option string :=
  match sent w with
  | Some (_, h) => h !! key
  | None => header w !! key
  end.

(** Neither the header map nor the headers that went out hold a Location. *)
Definition no_location (w : ResponseWriter) : Prop :=
  header w !! "Location" = None
  /\ forall c h, sent w = Some (c, h) -> h !! "Location" = None.

End HTTP.

Import HTTP.

(** ** wiki.go *)

(** [type Page struct { Title string; Body []byte }] *)
Record Page : Type := mkPage {
  Title : string;
  Body : list byte
}.

(** ** Package html/template

    The two template files are not part of the program text.  A parsed
    template is taken by what executing it does: the chunks it writes, in
    order, and the error that stopped it, if any ("If an error occurs
    executing the template or writing its output, execution stops, but partial
    results may already have been written to the output writer."). *)

Module Template.

Definition Template : Type := Page -> list (list byte) * option error.

(** The set that [template.ParseFiles("edit.html", "view.html")] returns. *)
Record Templates : Type := mkTemplates {
  edit_html : Template;
  view_html : Template
}.

Definition Lookup (ts : Templates) (name : string) : option Template :=
  if String.eqb name "edit.html" then Some (edit_html ts)
  else if String.eqb name "view.html" then Some (view_html ts)
  else None.

(** [ts.ExecuteTemplate(w, name, p)] *)
Definition ExecuteTemplate (ts : Templates) (w : ResponseWriter) (name : string)
    (p : Page) : ResponseWriter * option error :=
  match Lookup ts name with
  | None =>
      (w, Some (errorString ("html/template: " +:+ Str.dquote +:+ name
                               +:+ Str.dquote +:+ " is undefined")))
  | Some t =>
      let '(chunks, err) := t p in
      (fold_left Write chunks w, err)
  end.

(** No template of the set fails once it has written a chunk. *)
Definition fails_only_before_output (ts : Templates) : Prop :=
  forall t p chunks err,
    t = edit_html ts \/ t = view_html ts ->
    t p = (chunks, Some err) -> chunks = [].

End Template.

Import Template.

(** [func (p *Page) save() error] *)
Definition save (p : Page) (W : World) : World * option error :=
  let filename := Title p +:+ ".txt" in
  WriteFile filename (Body p) o600 W.

(** [func loadPage(title string)], which returns a pointer to a Page and an
    error *)
Definition loadPage (title : string) (W : World) : World * result Page :=
  let filename := title +:+ ".txt" in
  match ReadFile filename W with
  | (W1, Err err) => (W1, Err err)
  | (W1, Ok body) => (W1, Ok (mkPage title body))
  end.

(** [func getTitle(w http.ResponseWriter, r *http.Request) (string, error)] *)
Definition getTitle (w : ResponseWriter) (r : Request) : ResponseWriter * result string :=
  match FindStringSubmatch validPath (URL_Path r) with
  | None => (NotFound w r, Err (Errors.New "invalid Page Title"))
  | Some m => (w, Ok (default "" (m !! 2%nat)))
  end.

Section Handlers.

(** [var templates = template.Must(template.ParseFiles("edit.html", "view.html"))] *)
Variable templates : Templates.

(** [func renderTemplate(w http.ResponseWriter, tmpl string, p *Page)] *)
Definition renderTemplate (w : ResponseWriter) (tmpl : string) (p : Page)
    : ResponseWriter :=
  match ExecuteTemplate templates w (tmpl +:+ ".html") p with
  | (w1, Some err) => HTTP.Error w1 (Errors.Error err) StatusInternalServerError
  | (w1, None) => w1
  end.

(** [func viewHandler(w http.ResponseWriter, r *http.Request)] *)
Definition viewHandler (w : ResponseWriter) (r : Request) (W : World)
    : ResponseWriter * World :=
  match getTitle w r with
  | (w1, Err _) => (w1, W)
  | (w1, Ok title) =>
      match loadPage title W with
      | (W1, Err _) => (Redirect w1 r ("/edit/" +:+ title) StatusFound, W1)
      | (W1, Ok p) => (renderTemplate w1 "view" p, W1)
      end
  end.

(** [func editHandler(w http.ResponseWriter, r *http.Request)] *)
Definition editHandler (w : ResponseWriter) (r : Request) (W : World)
    : ResponseWriter * World :=
  match getTitle w r with
  | (w1, Err _) => (w1, W)
  | (w1, Ok title) =>
      let '(W1, loaded) := loadPage title W in
      let p := match loaded with
               | Err _ => mkPage title []
               | Ok p => p
               end in
      (renderTemplate w1 "edit" p, W1)
  end.

(** [func saveHandler(w http.ResponseWriter, r *http.Request)] *)
Definition saveHandler (w : ResponseWriter) (r : Request) (W : World)
    : ResponseWriter * World :=
  match getTitle w r with
  | (w1, Err _) => (w1, W)
  | (w1, Ok title) =>
      let body := FormValue r "body" in
      let p := mkPage title (list_byte_of_string body) in
      match save p W with
      | (W1, Some err) =>
          (HTTP.Error w1 (Errors.Error err) StatusInternalServerError, W1)
      | (W1, None) => (Redirect w1 r ("/view/" +:+ title) StatusFound, W1)
      end
  end.

End Handlers.

(** [func handler(w http.ResponseWriter, r *http.Request)], which no route
    uses.  [r.URL.Path[1:]] panics on an empty path (slice bounds out of
    range): that is [None]. *)
Definition handler (w : ResponseWriter) (r : Request) : option ResponseWriter :=
  match URL_Path r with
  | EmptyString => None
  | String _ rest =>
      Some (Write w (list_byte_of_string
                       ("Hi there, I Love this go " +:+ rest +:+ "!")))
  end.

(** ** Concrete worlds, templates and requests *)

Module Examples.

Definition bytes (s : string) : list byte := list_byte_of_string s.

(** An empty directory under the usual umask 022. *)
Definition W_empty : World := mkWorld ∅ o022 true [].

(** [Foo.txt] exists and its owner may write but not read it (mode 0200). *)
Definition W_writeonly : World :=
  mkWorld {[ "Foo.txt" := RegularFile o200 (bytes "old") ]} o022 true [].

(** [Foo.txt] exists with mode 0644, readable by everybody. *)
Definition W_shared : World :=
  mkWorld {[ "Foo.txt" := RegularFile o644 (bytes "old") ]} o022 true [].

(** [Foo.txt] is a directory. *)
Definition W_dir : World := mkWorld {[ "Foo.txt" := Directory ]} o022 true [].

(** Templates that print the title and the body. *)
Definition plain : Templates :=
  mkTemplates
    (fun p => ([bytes "<h1>Editing "; bytes (Title p); bytes "</h1><textarea>";
                Body p; bytes "</textarea>"], None))
    (fun p => ([bytes "<h1>"; bytes (Title p); bytes "</h1><div>"; Body p;
                bytes "</div>"], None)).

(** A [view.html] that reads [<h1>{{.Title}}</h1>{{.Nope}}]: it parses, and
    executing it writes the heading and then fails on the field that [Page]
    does not have. *)
Definition nope_error : error :=
  errorString ("template: view.html:1:21: executing " +:+ Str.dquote +:+ "view.html"
                 +:+ Str.dquote
                 +:+ " at <.Nope>: can't evaluate field Nope in type *main.Page").

Definition failing_view : Templates :=
  mkTemplates
    (edit_html plain)
    (fun p => ([bytes "<h1>"; bytes (Title p); bytes "</h1>"], Some nope_error)).

(** A [view.html] that fails before it writes anything. *)
Definition failing_at_once : Templates :=
  mkTemplates (edit_html plain) (fun p => ([], Some nope_error)).

Definition get (path : string) : Request := mkRequest "GET" path [] [] [].

(** A form submission of the edit page: [POST /save/Foo] with [body=hello]. *)
Definition post_hello : Request :=
  mkRequest "POST" "/save/Foo" [] [("body", "hello")] [].

(** A save request that carries no form field at all. *)
Definition post_nothing : Request := mkRequest "POST" "/save/Foo" [] [] [].

End Examples.

(** * Properties *)

(** ** Strings *)

Module StrFacts.
Import Str.

Lemma append_nil (s : string) : "" +:+ s = s.
Proof. reflexivity. Qed.

Lemma append_cons (c : ascii) (a b : string) :
  String c a +:+ b = String c (a +:+ b).
Proof. reflexivity. Qed.

(** Normalises appends whose left side is a literal. *)
Ltac sapp := repeat (rewrite append_cons || rewrite append_nil).

Lemma strip_prefix_app l s : strip_prefix l (l +:+ s) = Some s.
Proof.
  induction l as [|a l IH]; sapp; simpl; [reflexivity|].
  rewrite Ascii.eqb_refl. exact IH.
Qed.

Lemma strip_prefix_Some l s s' : strip_prefix l s = Some s' -> s = l +:+ s'.
Proof.
  revert s. induction l as [|a l IH]; intros s; simpl.
  - now intros [= ->].
  - destruct s as [|b s]; [discriminate|].
    destruct (Ascii.eqb a b) eqn:E; [|discriminate].
    apply Ascii.eqb_eq in E. subst b. intros H.
    rewrite (IH _ H). reflexivity.
Qed.

Lemma length_app (a b : string) :
  String.length (a +:+ b) = (String.length a + String.length b)%nat.
Proof. induction a; sapp; simpl; auto. Qed.

Lemma take_app (a b : string) : take (String.length a) (a +:+ b) = a.
Proof.
  induction a as [|c a IH]; sapp; simpl; [destruct b; reflexivity|].
  now rewrite IH.
Qed.

Lemma consumed_app (a b : string) : consumed (a +:+ b) b = a.
Proof.
  unfold consumed. rewrite length_app.
  replace (String.length a + String.length b - String.length b)%nat
    with (String.length a) by lia.
  apply take_app.
Qed.

Lemma app_assoc (a b c : string) : (a +:+ b) +:+ c = a +:+ (b +:+ c).
Proof. induction a as [|x a IH]; sapp; [reflexivity | now rewrite IH]. Qed.

Lemma app_nil_r (a : string) : a +:+ "" = a.
Proof. induction a as [|x a IH]; sapp; [reflexivity | now rewrite IH]. Qed.

Lemma consumed_all (a : string) : consumed a "" = a.
Proof.
  rewrite <- (app_nil_r a) at 1. apply consumed_app.
Qed.

Lemma app_inj_l (a b c : string) : a +:+ b = a +:+ c -> b = c.
Proof.
  induction a as [|x a IH]; sapp; intros H; [assumption | injection H; auto].
Qed.

End StrFacts.

(** ** The matcher against the language of the pattern *)

Module RegexpFacts.
Import Str StrFacts.

Lemma greedy_sound {A} rs s (k : string -> option A) m :
  greedy rs s k = Some m ->
  exists s1 s2, s = s1 +:+ s2 /\ matches (ClassPlus rs) s1 /\ k s2 = Some m.
Proof.
  revert m. induction s as [|c s IH]; intros m; simpl; [discriminate|].
  destruct (in_class rs c) eqn:Hc; [|discriminate].
  destruct (greedy rs s k) as [m'|] eqn:Hg.
  - intros [= <-]. destruct (IH m' eq_refl) as (s1 & s2 & -> & Hm & Hk).
    exists (String c s1), s2. split; [reflexivity|]. split; [|assumption].
    now apply m_plus_more.
  - intros Hk. exists (String c ""), s. split; [reflexivity|].
    split; [now apply m_plus_one | assumption].
Qed.

Lemma greedy_complete {A} rs s1 s2 (k : string -> option A) :
  matches (ClassPlus rs) s1 -> is_Some (k s2) -> is_Some (greedy rs (s1 +:+ s2) k).
Proof.
  intros Hm Hk. remember (ClassPlus rs) as r eqn:Hr.
  induction Hm as [| | | | | rs' c Hc | rs' c a Hc Hm IH]; try discriminate;
    injection Hr as ->; sapp; simpl; rewrite Hc.
  - destruct (greedy rs s2 k); [eauto | assumption].
  - destruct (IH eq_refl) as [m ->]. eauto.
Qed.

Lemma run_sound r : forall s cs k m,
  run r s cs k = Some m ->
  exists s1 s2 cs', s = s1 +:+ s2 /\ matches r s1 /\ k s2 cs' = Some m.
Proof.
  induction r as [l | r1 IH1 r2 IH2 | r1 IH1 r2 IH2 | r1 IH1 | rs];
    intros s cs k m; simpl.
  - destruct (strip_prefix l s) as [s'|] eqn:Hp; [|discriminate].
    intros Hk. apply strip_prefix_Some in Hp.
    exists l, s', cs. auto using m_lit.
  - intros H. apply IH1 in H as (s1 & s2 & cs1 & -> & Hm1 & H).
    apply IH2 in H as (s3 & s4 & cs2 & -> & Hm2 & H).
    exists (s1 +:+ s3), s4, cs2. rewrite app_assoc. auto using m_cat.
  - destruct (run r1 s cs k) as [m'|] eqn:H1.
    + intros [= <-]. apply IH1 in H1 as (s1 & s2 & cs' & -> & Hm & H).
      exists s1, s2, cs'. auto using m_alt_l.
    + intros H. apply IH2 in H as (s1 & s2 & cs' & -> & Hm & H).
      exists s1, s2, cs'. auto using m_alt_r.
  - intros H. apply IH1 in H as (s1 & s2 & cs' & -> & Hm & H).
    eexists s1, s2, _. split; [reflexivity|]. split; [now apply m_group|exact H].
  - intros H. apply greedy_sound in H as (s1 & s2 & -> & Hm & H).
    exists s1, s2, cs. auto.
Qed.

Lemma run_complete r s1 :
  matches r s1 ->
  forall s2 cs k,
    (forall cs', is_Some (k s2 cs')) -> is_Some (run r (s1 +:+ s2) cs k).
Proof.
  induction 1 as [l | r1 r2 a b _ IH1 _ IH2 | r1 r2 a _ IH | r1 r2 a _ IH
                 | r1 a _ IH | rs c Hc | rs c a Hc Hm _];
    intros s2 cs k Hk; sapp; simpl.
  - rewrite strip_prefix_app. apply Hk.
  - rewrite app_assoc. apply IH1. intros cs'. now apply IH2.
  - destruct (IH s2 cs k Hk) as [m ->]. eauto.
  - destruct (run r1 (a +:+ s2) cs k); [eauto | now apply IH].
  - apply IH. intros cs'. apply Hk.
  - rewrite Hc. destruct (greedy rs s2 _); [eauto | apply Hk].
  - rewrite Hc.
    destruct (greedy_complete rs a s2 (fun s' => k s' cs) Hm (Hk cs)) as [m ->].
    eauto.
Qed.

(** [FindStringSubmatch] returns nil exactly on the texts outside the
    language of the pattern. *)
Lemma FindStringSubmatch_None r s :
  FindStringSubmatch r s = None <-> ~ matches r s.
Proof.
  unfold FindStringSubmatch. split.
  - intros Hn Hm.
    destruct (run_complete r s Hm "" [s] at_end) as [m Hs]; [simpl; eauto|].
    rewrite app_nil_r in Hs. congruence.
  - intros Hn. destruct (run r s [s] at_end) as [m|] eqn:Hr; [|reflexivity].
    exfalso. apply Hn.
    apply run_sound in Hr as (s1 & s2 & cs' & -> & Hm & He).
    destruct s2; [|discriminate]. now rewrite app_nil_r.
Qed.

(** A greedy class repetition followed by the end of the text takes the
    whole text. *)
Lemma greedy_to_end {A} rs t (k : string -> option A) :
  matches (ClassPlus rs) t ->
  (forall c s, k (String c s) = None) ->
  greedy rs t k = k "".
Proof.
  intros Hm Hk. remember (ClassPlus rs) as r eqn:Hr.
  induction Hm as [| | | | | rs' c Hc | rs' c a Hc Hm IH]; try discriminate;
    injection Hr as ->; simpl; rewrite Hc.
  - reflexivity.
  - rewrite (IH eq_refl). destruct (k "") eqn:E; [reflexivity|].
    destruct a; [assumption | apply Hk].
Qed.

Lemma matches_validPath_inv p :
  matches validPath p ->
  exists op t, p = "/" +:+ op +:+ "/" +:+ t /\ is_op op /\ alnum t.
Proof.
  unfold validPath. intros H.
  inversion H as [| ? ? s1 s2 H1 H2 | | | | |]; subst. clear H.
  inversion H1; subst. clear H1.
  inversion H2 as [| ? ? s3 s4 H3 H4 | | | | |]; subst. clear H2.
  inversion H4 as [| ? ? s5 s6 H5 H6 | | | | |]; subst. clear H4.
  inversion H5; subst. clear H5.
  inversion H6 as [| | | | ? ? H7 | |]; subst. clear H6.
  inversion H3 as [| | | | ? ? H8 | |]; subst. clear H3.
  exists s3, s6. split; [reflexivity|]. split; [|exact H7].
  inversion H8 as [| | ? ? ? Ha | ? ? ? Ha | | |]; subst; clear H8.
  - inversion Ha; subst. now left.
  - inversion Ha as [| | ? ? ? Hb | ? ? ? Hb | | |]; subst; clear Ha;
      inversion Hb; subst; [right; now left | right; now right].
Qed.

Lemma matches_validPath_intro op t :
  is_op op -> alnum t -> matches validPath ("/" +:+ op +:+ "/" +:+ t).
Proof.
  intros Hop Ht. unfold validPath.
  apply m_cat; [apply m_lit|]. apply m_cat.
  - apply m_group. destruct Hop as [-> | [-> | ->]].
    + apply m_alt_l, m_lit.
    + apply m_alt_r, m_alt_l, m_lit.
    + apply m_alt_r, m_alt_r, m_lit.
  - apply m_cat; [apply m_lit | now apply m_group].
Qed.

(** On a matching path the submatches are the path, the operation and the
    title. *)
Lemma FindStringSubmatch_validPath op t :
  is_op op -> alnum t ->
  FindStringSubmatch validPath ("/" +:+ op +:+ "/" +:+ t)
  = Some ["/" +:+ op +:+ "/" +:+ t; op; t].
Proof.
  intros Hop Ht. unfold FindStringSubmatch, validPath.
  destruct Hop as [-> | [-> | ->]]; sapp; simpl;
    (rewrite greedy_to_end; [| exact Ht | reflexivity]); simpl;
    rewrite consumed_all.
  - now rewrite (consumed_app "edit" (String "/" t) : consumed (String _ _) _ = _).
  - now rewrite (consumed_app "save" (String "/" t) : consumed (String _ _) _ = _).
  - now rewrite (consumed_app "view" (String "/" t) : consumed (String _ _) _ = _).
Qed.

(** Every non-nil result of [FindStringSubmatch validPath] has that shape. *)
Lemma FindStringSubmatch_validPath_Some p m :
  FindStringSubmatch validPath p = Some m ->
  exists op t,
    p = "/" +:+ op +:+ "/" +:+ t /\ is_op op /\ alnum t /\ m = [p; op; t].
Proof.
  intros H.
  assert (Hm : matches validPath p).
  { destruct (FindStringSubmatch_None validPath p) as [_ Hn].
    unfold FindStringSubmatch in *.
    apply run_sound in H as (s1 & s2 & cs' & -> & Hm & He).
    destruct s2; [|discriminate]. now rewrite app_nil_r. }
  apply matches_validPath_inv in Hm as (op & t & -> & Hop & Ht).
  rewrite (FindStringSubmatch_validPath op t Hop Ht) in H.
  injection H as <-. eauto 6.
Qed.

End RegexpFacts.

Import StrFacts RegexpFacts.

(** ** Titles and [getTitle] *)

Lemma all_alnum_matches t :
  t <> "" -> Str.all (in_class alnum_ranges) t = true -> alnum t.
Proof.
  unfold alnum. induction t as [|c t IH]; [congruence|].
  intros _. simpl. intros H. apply andb_prop in H as [Hc Ht].
  destruct t as [|d t].
  - now apply m_plus_one.
  - apply m_plus_more; [assumption|]. now apply IH.
Qed.

Lemma alnumb_alnum t : alnumb t = true -> alnum t.
Proof.
  unfold alnumb. intros H. apply andb_prop in H as [Hn Ha].
  apply all_alnum_matches; [|assumption].
  intros ->. discriminate.
Qed.

Lemma alnum_not_empty t : alnum t -> t <> "".
Proof. unfold alnum. inversion 1; discriminate. Qed.

Lemma getTitle_invalid w r :
  ~ matches validPath (URL_Path r) ->
  getTitle w r = (NotFound w r, Err (Errors.New "invalid Page Title")).
Proof.
  intros H. unfold getTitle.
  now rewrite (proj2 (FindStringSubmatch_None validPath (URL_Path r)) H).
Qed.

Lemma getTitle_valid w r op t :
  URL_Path r = "/" +:+ op +:+ "/" +:+ t -> is_op op -> alnum t ->
  getTitle w r = (w, Ok t).
Proof.
  intros Hp Hop Ht. unfold getTitle.
  now rewrite Hp, (FindStringSubmatch_validPath op t Hop Ht).
Qed.

(** A title that [getTitle] returns is the alphanumeric tail of the path. *)
Lemma getTitle_Ok w r w' t :
  getTitle w r = (w', Ok t) ->
  w' = w /\ alnum t /\ exists op, is_op op /\ URL_Path r = "/" +:+ op +:+ "/" +:+ t.
Proof.
  unfold getTitle.
  destruct (FindStringSubmatch validPath (URL_Path r)) as [m|] eqn:Hm;
    [|discriminate].
  apply FindStringSubmatch_validPath_Some in Hm as (op & t' & Hp & Hop & Ht & ->).
  simpl. intros [= <- <-]. eauto.
Qed.

(** ** The file operations *)

Module OSFacts.

Lemma WriteFile_trace name data perm W :
  trace (WriteFile name data perm W).1
  = (trace W ++ [SysWriteFile name data perm])%list.
Proof.
  unfold WriteFile.
  destruct (files W !! name) as [[mode old|]|];
    [destruct (owner_may_write mode) | |
     destruct (name_fits name); [destruct (dir_writable W)|]]; reflexivity.
Qed.

Lemma WriteFile_ok_iff name data perm W :
  (WriteFile name data perm W).2 = None <-> writable W name = true.
Proof.
  unfold WriteFile, writable.
  destruct (files W !! name) as [[mode old|]|];
    [destruct (owner_may_write mode) | |
     destruct (name_fits name); [destruct (dir_writable W)|]];
    simpl; split; congruence.
Qed.

Lemma WriteFile_ok name data perm W W1 :
  WriteFile name data perm W = (W1, None) ->
  files W1 = <[name := RegularFile (mode_after W name perm) data]> (files W)
  /\ umask W1 = umask W /\ dir_writable W1 = dir_writable W.
Proof.
  unfold WriteFile, mode_after.
  destruct (files W !! name) as [[mode old|]|];
    [destruct (owner_may_write mode) | |
     destruct (name_fits name); [destruct (dir_writable W) eqn:Hd|]];
    intros [= <-]; simpl; auto.
Qed.

Lemma WriteFile_failed name data perm W W1 err :
  WriteFile name data perm W = (W1, Some err) -> files W1 = files W.
Proof.
  unfold WriteFile.
  destruct (files W !! name) as [[mode old|]|];
    [destruct (owner_may_write mode) | |
     destruct (name_fits name); [destruct (dir_writable W)|]];
    intros [= <- _]; reflexivity.
Qed.

Lemma ReadFile_files name W : files (ReadFile name W).1 = files W.
Proof.
  unfold ReadFile.
  destruct (files W !! name) as [[mode old|]|];
    [destruct (owner_may_read mode) | | destruct (name_fits name)]; reflexivity.
Qed.

Lemma ReadFile_readable name W mode data :
  files W !! name = Some (RegularFile mode data) -> owner_may_read mode = true ->
  ReadFile name W = (record (SysReadFile name) W, Ok data).
Proof. intros Hf Hr. unfold ReadFile. now rewrite Hf, Hr. Qed.

Lemma ReadFile_absent name W :
  files W !! name = None -> name_fits name = true ->
  ReadFile name W = (record (SysReadFile name) W, Err (PathError "open" name ENOENT)).
Proof. intros Hf Hn. unfold ReadFile. now rewrite Hf, Hn. Qed.

(** Permission 0600 leaves nothing to group and others, whatever the umask. *)
Lemma created_owner_only (mask : Z) : owner_only (Z.ldiff o600 mask).
Proof.
  unfold owner_only. apply Z.bits_inj'. intros n Hn.
  rewrite Z.land_spec, Z.ldiff_spec, Z.bits_0.
  destruct (Z.testbit o600 n) eqn:H6; [|reflexivity].
  destruct (Z.testbit o077 n) eqn:H7; [|now rewrite andb_false_r].
  exfalso.
  assert (H : Z.testbit (Z.land o600 o077) n = true)
    by (rewrite Z.land_spec, H6, H7; reflexivity).
  change (Z.land o600 o077) with 0 in H. rewrite Z.bits_0 in H. discriminate.
Qed.

(** A file created with permission 0600 is readable by its owner unless the
    umask takes the owner's read bit away. *)
Lemma created_readable (mask : Z) :
  Z.testbit mask 8 = false -> owner_may_read (Z.ldiff o600 mask) = true.
Proof.
  intros H. unfold owner_may_read. rewrite Z.ldiff_spec, H. reflexivity.
Qed.

End OSFacts.

(** ** The response writer *)

Module HTTPFacts.

Lemma Error_status w msg code :
  sent w = None -> status (HTTP.Error w msg code) = code.
Proof. intros H. unfold HTTP.Error, Fprintln, Write, WriteHeader, status. simpl. now rewrite H. Qed.

Lemma Error_body w msg code :
  body (HTTP.Error w msg code) = (body w ++ list_byte_of_string (msg +:+ Str.nl))%list.
Proof.
  unfold HTTP.Error, Fprintln, Write, WriteHeader. simpl.
  destruct (sent w); reflexivity.
Qed.

Lemma Error_superfluous w msg code :
  sent w = None -> superfluous (HTTP.Error w msg code) = superfluous w.
Proof. intros H. unfold HTTP.Error, Fprintln, Write, WriteHeader. simpl. now rewrite H. Qed.

Lemma Error_no_location w msg code :
  sent w = None -> header w !! "Location" = None ->
  sent_header (HTTP.Error w msg code) "Location" = None.
Proof.
  intros H Hl. unfold HTTP.Error, Fprintln, Write, WriteHeader, sent_header. simpl.
  rewrite H. simpl.
  rewrite !lookup_insert_ne, lookup_delete_ne by discriminate. exact Hl.
Qed.

(** Once the status line is out, [http.Error] cannot change it: the code is
    dropped and the message joins the body. *)
Lemma Error_too_late w msg code c h :
  sent w = Some (c, h) ->
  status (HTTP.Error w msg code) = c
  /\ superfluous (HTTP.Error w msg code) = (superfluous w ++ [code])%list.
Proof.
  intros H. unfold HTTP.Error, Fprintln, Write, WriteHeader, status. simpl.
  rewrite H. simpl. auto.
Qed.

Lemma Redirect_status w r url code :
  sent w = None -> status (Redirect w r url code) = code.
Proof.
  intros H. unfold Redirect, Fprintln, Write, WriteHeader, status.
  repeat match goal with
         | |- context [if (?a && ?b)%bool then _ else _] => destruct (a && b)%bool
         end;
    simpl; rewrite H; reflexivity.
Qed.

Lemma Redirect_location w r url code :
  sent w = None -> sent_header (Redirect w r url code) "Location" = Some url.
Proof.
  intros H. unfold Redirect, Fprintln, Write, WriteHeader, sent_header.
  repeat match goal with
         | |- context [if (?a && ?b)%bool then _ else _] => destruct (a && b)%bool
         end;
    simpl; rewrite H; simpl;
    rewrite ?(lookup_insert_ne _ "Content-Type" "Location") by discriminate;
    apply lookup_insert_eq.
Qed.

Lemma Redirect_superfluous w r url code :
  sent w = None -> superfluous (Redirect w r url code) = superfluous w.
Proof.
  intros H. unfold Redirect, Fprintln, Write, WriteHeader.
  repeat match goal with
         | |- context [if (?a && ?b)%bool then _ else _] => destruct (a && b)%bool
         end;
    simpl; rewrite H; reflexivity.
Qed.

Lemma Write_sent w data : is_Some (sent (Write w data)).
Proof. unfold Write, WriteHeader. destruct (sent w) eqn:H; simpl; eauto. Qed.

Lemma Write_sent_keeps w data c h :
  sent w = Some (c, h) -> sent (Write w data) = Some (c, h).
Proof. intros H. unfold Write. rewrite H. simpl. exact H. Qed.

End HTTPFacts.

Import OSFacts HTTPFacts Examples.

(** * The claims *)

Lemma traversal_path_invalid : ~ matches validPath "/save/../secret".
Proof. apply FindStringSubmatch_None. reflexivity. Qed.

(** C2: on a request path outside [^/(edit|save|view)/([a-zA-Z0-9]+)$] every
    handler answers 404 Not Found and returns at once: the working directory
    and the record of file operations are what they were, so neither
    [loadPage] nor [save] was reached. *)
Theorem invalid_path_is_404_without_io (T : Templates) (r : Request) (W : World) :
  ~ matches validPath (URL_Path r) ->
  let answer := NotFound newResponse r in
  viewHandler T newResponse r W = (answer, W)
  /\ editHandler T newResponse r W = (answer, W)
  /\ saveHandler newResponse r W = (answer, W)
  /\ status answer = StatusNotFound
  /\ body answer = list_byte_of_string ("404 page not found" +:+ Str.nl)
  /\ superfluous answer = [].
Proof.
  intros H answer. unfold viewHandler, editHandler, saveHandler.
  rewrite (getTitle_invalid newResponse r H). repeat split.
Qed.

Lemma invalid_path_is_404_without_io_witness :
  ~ matches validPath (URL_Path (get "/save/../secret"))
  /\ saveHandler newResponse (get "/save/../secret") W_shared
     = (NotFound newResponse (get "/save/../secret"), W_shared).
Proof.
  split; [exact traversal_path_invalid|].
  exact (proj1 (proj2 (proj2
    (invalid_path_is_404_without_io plain (get "/save/../secret") W_shared
       traversal_path_invalid)))).
Defined.

(** The two outcomes of the save handler on a valid request. *)
Lemma saveHandler_outcomes (r : Request) (W : World) (t : string) :
  URL_Path r = "/save/" +:+ t -> alnum t ->
  let p := mkPage t (list_byte_of_string (FormValue r "body")) in
  let answer := (saveHandler newResponse r W).1 in
  let W' := (saveHandler newResponse r W).2 in
  W' = (save p W).1
  /\ match (save p W).2 with
     | Some err =>
         status answer = StatusInternalServerError
         /\ body answer = list_byte_of_string (Errors.Error err +:+ Str.nl)
         /\ sent_header answer "Location" = None
     | None =>
         (exists mode, files W' !! (t +:+ ".txt") = Some (RegularFile mode (Body p)))
         /\ status answer = StatusFound
         /\ sent_header answer "Location" = Some ("/view/" +:+ t)
     end.
Proof.
  intros Hp Ht p answer W'. subst answer W'. unfold saveHandler.
  rewrite (getTitle_valid newResponse r "save" t Hp (or_intror (or_introl eq_refl)) Ht).
  fold p. destruct (save p W) as [W1 [err|]] eqn:Hs; cbn [fst snd].
  - split; [reflexivity|]. split; [now apply Error_status|].
    split; [apply Error_body|]. now apply Error_no_location.
  - split; [reflexivity|]. split.
    + apply WriteFile_ok in Hs as (Hf & _). rewrite Hf.
      eexists. apply lookup_insert_eq.
    + split; [now apply Redirect_status | now apply Redirect_location].
Qed.

(** C3: on a valid request [/save/<title>] the save handler saves the page
    made of the title and of the form value "body".  When the save fails the
    answer is 500 with the text of the error and no Location header; when it
    succeeds the file holds the body and the answer is a redirect to
    [/view/<title>]. *)
Theorem saveHandler_persists_or_500 (r : Request) (W : World) (t : string) :
  URL_Path r = "/save/" +:+ t -> alnum t ->
  let p := mkPage t (list_byte_of_string (FormValue r "body")) in
  let answer := (saveHandler newResponse r W).1 in
  let W' := (saveHandler newResponse r W).2 in
  W' = (save p W).1
  /\ match (save p W).2 with
     | Some err =>
         status answer = StatusInternalServerError
         /\ body answer = list_byte_of_string (Errors.Error err +:+ Str.nl)
         /\ sent_header answer "Location" = None
     | None =>
         (exists mode, files W' !! (t +:+ ".txt") = Some (RegularFile mode (Body p)))
         /\ status answer = StatusFound
         /\ sent_header answer "Location" = Some ("/view/" +:+ t)
     end.
Proof. exact (saveHandler_outcomes r W t). Qed.

Lemma saveHandler_persists_or_500_witness :
  URL_Path post_hello = "/save/" +:+ "Foo" /\ alnum "Foo"
  /\ (saveHandler newResponse post_hello W_dir).2
     = (save (mkPage "Foo" (list_byte_of_string (FormValue post_hello "body"))) W_dir).1.
Proof.
  assert (Hp : URL_Path post_hello = "/save/" +:+ "Foo") by reflexivity.
  assert (Ht : alnum "Foo") by (apply alnumb_alnum; reflexivity).
  split; [exact Hp|]. split; [exact Ht|].
  exact (proj1 (saveHandler_persists_or_500 post_hello W_dir "Foo" Hp Ht)).
Defined.

(** C4: on a valid request [/view/<title>] whose page cannot be loaded, the
    view handler answers 302 Found with Location [/edit/<title>], which is
    not [/view/<title>]; no error status goes out and no file changes. *)
Theorem viewHandler_missing_page_redirects_to_edit
    (T : Templates) (r : Request) (W W1 : World) (t : string) (err : error) :
  URL_Path r = "/view/" +:+ t -> alnum t ->
  loadPage t W = (W1, Err err) ->
  let answer := (viewHandler T newResponse r W).1 in
  status answer = StatusFound
  /\ sent_header answer "Location" = Some ("/edit/" +:+ t)
  /\ sent_header answer "Location" <> Some ("/view/" +:+ t)
  /\ superfluous answer = []
  /\ files (viewHandler T newResponse r W).2 = files W.
Proof.
  intros Hp Ht Hl answer. subst answer. unfold viewHandler.
  rewrite (getTitle_valid newResponse r "view" t Hp
             (or_intror (or_intror eq_refl)) Ht), Hl. cbn [fst snd].
  split; [now apply Redirect_status|].
  rewrite Redirect_location by reflexivity.
  split; [reflexivity|]. split; [discriminate|].
  split; [now apply Redirect_superfluous|].
  unfold loadPage in Hl. pose proof (ReadFile_files (t +:+ ".txt") W) as Hf.
  destruct (ReadFile (t +:+ ".txt") W) as [W2 [b|e]]; injection Hl as <- _;
    exact Hf.
Qed.

Lemma viewHandler_missing_page_redirects_to_edit_witness :
  URL_Path (get "/view/Bar") = "/view/" +:+ "Bar" /\ alnum "Bar"
  /\ loadPage "Bar" W_shared
     = (record (SysReadFile "Bar.txt") W_shared,
        Err (PathError "open" "Bar.txt" ENOENT))
  /\ sent_header (viewHandler plain newResponse (get "/view/Bar") W_shared).1 "Location"
     = Some ("/edit/" +:+ "Bar").
Proof.
  assert (Hp : URL_Path (get "/view/Bar") = "/view/" +:+ "Bar") by reflexivity.
  assert (Ht : alnum "Bar") by (apply alnumb_alnum; reflexivity).
  assert (Hl : loadPage "Bar" W_shared
               = (record (SysReadFile "Bar.txt") W_shared,
                  Err (PathError "open" "Bar.txt" ENOENT))) by reflexivity.
  split; [exact Hp|]. split; [exact Ht|]. split; [exact Hl|].
  exact (proj1 (proj2 (viewHandler_missing_page_redirects_to_edit
                         plain (get "/view/Bar") W_shared _ "Bar" _ Hp Ht Hl))).
Defined.

(** A save that creates the file leaves it readable, unless the umask takes
    the owner's read bit away. *)
Lemma save_creates_readable (p : Page) (W : World) :
  files W !! (Title p +:+ ".txt") = None ->
  name_fits (Title p +:+ ".txt") = true -> dir_writable W = true ->
  Z.testbit (umask W) 8 = false ->
  (save p W).2 = None /\ readable (save p W).1 (Title p +:+ ".txt").
Proof.
  intros Hf Hn Hd Hu.
  assert (Hw : writable W (Title p +:+ ".txt") = true)
    by (unfold writable; now rewrite Hf, Hn, Hd).
  pose proof (proj2 (WriteFile_ok_iff _ (Body p) o600 W) Hw) as Hok.
  unfold save. split; [exact Hok|].
  destruct (WriteFile _ (Body p) o600 W) as [W1 e] eqn:Hs.
  cbn [fst snd] in *. subst e. apply WriteFile_ok in Hs as (Hfiles & _).
  exists (mode_after W (Title p +:+ ".txt") o600), (Body p).
  split; [rewrite Hfiles; apply lookup_insert_eq|].
  unfold mode_after. rewrite Hf. now apply created_readable.
Qed.

(** C1, amended: for an alphanumeric title and any body, when the save
    succeeds and leaves a file that the server may read, loading the same
    title succeeds and returns the page with that title and exactly the bytes
    saved. *)
Theorem save_then_load_roundtrip (t : string) (b : list byte) (W W1 : World) :
  alnum t ->
  save (mkPage t b) W = (W1, None) ->
  readable W1 (t +:+ ".txt") ->
  (loadPage t W1).2 = Ok (mkPage t b).
Proof.
  intros _ Hs (mode & data & Hf & Hr). unfold save in Hs. simpl in Hs.
  apply WriteFile_ok in Hs as (Hfiles & _).
  rewrite Hfiles, lookup_insert_eq in Hf. injection Hf as Hm <-.
  unfold loadPage.
  rewrite (ReadFile_readable (t +:+ ".txt") W1 mode b);
    [reflexivity | | assumption].
  rewrite Hfiles, lookup_insert_eq. now rewrite Hm.
Qed.

Lemma save_then_load_roundtrip_witness :
  alnum "Foo"
  /\ save (mkPage "Foo" (bytes "hello")) W_empty
     = ((save (mkPage "Foo" (bytes "hello")) W_empty).1, None)
  /\ readable (save (mkPage "Foo" (bytes "hello")) W_empty).1 ("Foo" +:+ ".txt")
  /\ (loadPage "Foo" (save (mkPage "Foo" (bytes "hello")) W_empty).1).2
     = Ok (mkPage "Foo" (bytes "hello")).
Proof.
  assert (Ht : alnum "Foo") by (apply alnumb_alnum; reflexivity).
  assert (Hs : save (mkPage "Foo" (bytes "hello")) W_empty
               = ((save (mkPage "Foo" (bytes "hello")) W_empty).1, None))
    by reflexivity.
  assert (Hr : readable (save (mkPage "Foo" (bytes "hello")) W_empty).1
                 ("Foo" +:+ ".txt")).
  { exists o600, (bytes "hello"). split; reflexivity. }
  split; [exact Ht|]. split; [exact Hs|]. split; [exact Hr|].
  exact (save_then_load_roundtrip "Foo" (bytes "hello") W_empty _ Ht Hs Hr).
Defined.

(** C1 as stated fails: on a [Foo.txt] of mode 0200 the save succeeds, the
    mode stays, and the load is refused. *)
Lemma save_then_load_refused_on_writeonly_file :
  (save (mkPage "Foo" (bytes "hello")) W_writeonly).2 = None
  /\ (loadPage "Foo" (save (mkPage "Foo" (bytes "hello")) W_writeonly).1).2
     = Err (PathError "open" "Foo.txt" EACCES)
  /\ ~ (forall (t : string) (b : list byte) (W : World),
          alnum t -> (loadPage t (save (mkPage t b) W).1).2 = Ok (mkPage t b)).
Proof.
  split; [reflexivity|]. split; [reflexivity|].
  intros H.
  specialize (H "Foo" (bytes "hello") W_writeonly
                (alnumb_alnum "Foo" eq_refl)).
  discriminate H.
Qed.

(** C7, amended: [save] issues one [os.WriteFile] of the body to
    [Title + ".txt"] with permission 0600 and touches no other entry.  When
    it succeeds the file holds exactly the body: a file that was absent is
    created with mode 0600 less the umask, which gives group and others no
    access; a file that was there is truncated and keeps its mode. *)
Theorem save_writes_body_to_title_txt (p : Page) (W W1 : World) :
  save p W = (W1, None) ->
  let name := Title p +:+ ".txt" in
  trace W1 = (trace W ++ [SysWriteFile name (Body p) o600])%list
  /\ (forall other, other <> name -> files W1 !! other = files W !! other)
  /\ match files W !! name with
     | None =>
         files W1 !! name = Some (RegularFile (Z.ldiff o600 (umask W)) (Body p))
         /\ owner_only (Z.ldiff o600 (umask W))
     | Some (RegularFile mode _) =>
         files W1 !! name = Some (RegularFile mode (Body p))
     | Some Directory => False
     end.
Proof.
  intros Hs name. unfold save in Hs. fold name in Hs.
  pose proof (WriteFile_trace name (Body p) o600 W) as Ht.
  pose proof (proj1 (WriteFile_ok_iff name (Body p) o600 W)) as Hw.
  rewrite Hs in Ht, Hw. simpl in Ht, Hw. specialize (Hw eq_refl).
  apply WriteFile_ok in Hs as (Hf & _).
  split; [exact Ht|]. split.
  - intros other Hne. rewrite Hf. now apply lookup_insert_ne.
  - rewrite Hf, lookup_insert_eq. unfold mode_after, writable in *.
    destruct (files W !! name) as [[mode old|]|].
    + reflexivity.
    + discriminate.
    + split; [reflexivity | apply created_owner_only].
Qed.

Lemma save_writes_body_to_title_txt_witness :
  save (mkPage "Foo" (bytes "hello")) W_shared
  = ((save (mkPage "Foo" (bytes "hello")) W_shared).1, None)
  /\ trace (save (mkPage "Foo" (bytes "hello")) W_shared).1
     = (trace W_shared ++ [SysWriteFile ("Foo" +:+ ".txt") (bytes "hello") o600])%list.
Proof.
  assert (Hs : save (mkPage "Foo" (bytes "hello")) W_shared
               = ((save (mkPage "Foo" (bytes "hello")) W_shared).1, None))
    by reflexivity.
  split; [exact Hs|].
  exact (proj1 (save_writes_body_to_title_txt
                  (mkPage "Foo" (bytes "hello")) W_shared _ Hs)).
Defined.

(** C7 as stated fails: a [Foo.txt] of mode 0644 is overwritten and is still
    of mode 0644, open to group and others. *)
Lemma save_keeps_mode_of_existing_file :
  (save (mkPage "Foo" (bytes "hello")) W_shared).2 = None
  /\ files (save (mkPage "Foo" (bytes "hello")) W_shared).1 !! "Foo.txt"
     = Some (RegularFile o644 (bytes "hello"))
  /\ ~ owner_only o644
  /\ ~ (forall (p : Page) (W : World),
          (save p W).2 = None ->
          exists mode data,
            files (save p W).1 !! (Title p +:+ ".txt") = Some (RegularFile mode data)
            /\ owner_only mode).
Proof.
  split; [reflexivity|]. split; [reflexivity|]. split; [discriminate|].
  intros H.
  destruct (H (mkPage "Foo" (bytes "hello")) W_shared eq_refl)
    as (mode & data & Hf & Ho).
  vm_compute in Hf. injection Hf as <- _. discriminate Ho.
Qed.

(** C10, amended: a valid save request whose form has no field "body" is
    a save of the empty body and no error of its own.  [FormValue] gives the
    empty string and the handler saves the page of that title with no bytes.
    Where the file can be written it is left with no bytes, whatever it
    held, and the answer is the redirect to [/view/<title>]; where it cannot,
    the answer is the 500 of a failed save, without Location, and no file
    changes. *)
Theorem saveHandler_without_body_field (r : Request) (W : World) (t : string) :
  URL_Path r = "/save/" +:+ t -> alnum t ->
  first_value "body" (Form r) = None ->
  let answer := (saveHandler newResponse r W).1 in
  let W' := (saveHandler newResponse r W).2 in
  FormValue r "body" = ""
  /\ W' = (save (mkPage t []) W).1
  /\ (writable W (t +:+ ".txt") = true ->
      (exists mode, files W' !! (t +:+ ".txt") = Some (RegularFile mode []))
      /\ status answer = StatusFound
      /\ sent_header answer "Location" = Some ("/view/" +:+ t))
  /\ (writable W (t +:+ ".txt") = false ->
      status answer = StatusInternalServerError
      /\ sent_header answer "Location" = None
      /\ files W' = files W).
Proof.
  intros Hp Ht Hb answer W'.
  assert (Hv : FormValue r "body" = "") by (unfold FormValue; now rewrite Hb).
  split; [exact Hv|].
  pose proof (saveHandler_outcomes r W t Hp Ht) as H.
  cbv zeta in H. rewrite Hv in H. fold answer W' in H.
  change (list_byte_of_string "") with (@nil byte) in H.
  destruct H as [HW H]. split; [exact HW|].
  pose proof (WriteFile_ok_iff (t +:+ ".txt") [] o600 W) as Hiff.
  change (WriteFile (t +:+ ".txt") [] o600 W) with (save (mkPage t []) W) in Hiff.
  split; intros Hw.
  - rewrite (proj2 Hiff Hw) in H. exact H.
  - destruct (save (mkPage t []) W) as [W1 [err|]] eqn:Hs; cbn [fst snd] in *.
    + destruct H as (Hst & _ & Hloc). split; [exact Hst|]. split; [exact Hloc|].
      rewrite HW. unfold save in Hs. now apply WriteFile_failed in Hs.
    + rewrite (proj1 Hiff eq_refl) in Hw. discriminate Hw.
Qed.

Lemma saveHandler_without_body_field_witness :
  URL_Path post_nothing = "/save/" +:+ "Foo" /\ alnum "Foo"
  /\ first_value "body" (Form post_nothing) = None
  /\ FormValue post_nothing "body" = ""
  /\ (saveHandler newResponse post_nothing W_shared).2
     = (save (mkPage "Foo" []) W_shared).1.
Proof.
  assert (Hp : URL_Path post_nothing = "/save/" +:+ "Foo") by reflexivity.
  assert (Ht : alnum "Foo") by (apply alnumb_alnum; reflexivity).
  assert (Hb : first_value "body" (Form post_nothing) = None) by reflexivity.
  split; [exact Hp|]. split; [exact Ht|]. split; [exact Hb|].
  pose proof (saveHandler_without_body_field post_nothing W_shared "Foo" Hp Ht Hb)
    as H.
  split; [exact (proj1 H) | exact (proj1 (proj2 H))].
Defined.

(** C10 as stated fails: where [Foo.txt] is a directory, the save request
    without a field "body" is answered 500 and no zero-byte file is
    written. *)
Lemma saveHandler_without_body_field_fails_on_directory :
  first_value "body" (Form post_nothing) = None
  /\ status (saveHandler newResponse post_nothing W_dir).1 = StatusInternalServerError
  /\ body (saveHandler newResponse post_nothing W_dir).1
     = bytes ("open Foo.txt: is a directory" +:+ Str.nl)
  /\ files (saveHandler newResponse post_nothing W_dir).2 !! "Foo.txt" = Some Directory
  /\ ~ (forall (r : Request) (W : World) (t : string),
          URL_Path r = "/save/" +:+ t -> alnum t ->
          first_value "body" (Form r) = None ->
          (exists mode,
             files (saveHandler newResponse r W).2 !! (t +:+ ".txt")
             = Some (RegularFile mode []))
          /\ status (saveHandler newResponse r W).1 = StatusFound).
Proof.
  split; [reflexivity|]. split; [reflexivity|]. split; [reflexivity|].
  split; [reflexivity|].
  intros H.
  destruct (H post_nothing W_dir "Foo" eq_refl (alnumb_alnum "Foo" eq_refl) eq_refl)
    as [_ Hs].
  discriminate Hs.
Qed.

(** ** The request method *)







(** ** Rendering failures *)

Lemma Writes_sent_keeps chunks w c h :
  sent w = Some (c, h) -> sent (fold_left Write chunks w) = Some (c, h).
Proof.
  revert w. induction chunks as [|d chunks IH]; intros w H; simpl; [exact H|].
  apply IH. now apply Write_sent_keeps.
Qed.

Lemma Writes_superfluous chunks w :
  superfluous (fold_left Write chunks w) = superfluous w.
Proof.
  revert w. induction chunks as [|d chunks IH]; intros w; simpl; [reflexivity|].
  rewrite IH. unfold Write, WriteHeader. destruct (sent w); reflexivity.
Qed.

(** X16: a template that fails before it writes anything gets the 500
    answer with the text of the error. *)
Lemma renderTemplate_fails_before_output T tmpl t p err :
  Lookup T (tmpl +:+ ".html") = Some t -> t p = ([], Some err) ->
  renderTemplate T newResponse tmpl p
  = HTTP.Error newResponse (Errors.Error err) StatusInternalServerError
  /\ status (renderTemplate T newResponse tmpl p) = StatusInternalServerError.
Proof.
  intros Hl Hp. unfold renderTemplate, ExecuteTemplate. rewrite Hl, Hp.
  split; reflexivity.
Qed.

(** A template that fails after its first write has sent 200 OK already:
    the 500 of [http.Error] is the code of a superfluous [WriteHeader]. *)
Lemma renderTemplate_fails_after_output T tmpl t p c chunks err :
  Lookup T (tmpl +:+ ".html") = Some t -> t p = (c :: chunks, Some err) ->
  status (renderTemplate T newResponse tmpl p) = StatusOK
  /\ superfluous (renderTemplate T newResponse tmpl p) = [StatusInternalServerError].
Proof.
  intros Hl Hp. unfold renderTemplate, ExecuteTemplate. rewrite Hl, Hp.
  assert (Hs : sent (fold_left Write (c :: chunks) newResponse)
               = Some (StatusOK, ∅))
    by (simpl; now apply Writes_sent_keeps).
  destruct (Error_too_late _ (Errors.Error err) StatusInternalServerError _ _ Hs)
    as [H1 H2].
  split; [exact H1|]. rewrite H2, Writes_superfluous. reflexivity.
Qed.

(** C8, on the code: with a [view.html] that fails after its heading,
    [GET /view/Foo] on an existing page is answered 200 OK, not 500. *)
Theorem render_failure_after_output_is_200 :
  let answer := (viewHandler failing_view newResponse (get "/view/Foo") W_shared).1 in
  status answer = StatusOK
  /\ status answer <> StatusInternalServerError
  /\ status (viewHandler failing_at_once newResponse (get "/view/Foo") W_shared).1
     = StatusInternalServerError.
Proof. split; [reflexivity|]. split; [discriminate | reflexivity]. Qed.

(** C6, on the code: in the same run two responses go into one.  The
    beginning of the page is out under 200 OK when the handler starts the
    error response, whose status line is dropped and whose text follows the
    page in the body. *)
Theorem render_failure_writes_page_then_error :
  let answer := (viewHandler failing_view newResponse (get "/view/Foo") W_shared).1 in
  sent answer = Some (StatusOK, ∅)
  /\ superfluous answer = [StatusInternalServerError]
  /\ body answer
     = (bytes "<h1>Foo</h1>" ++ bytes (Errors.Error nope_error +:+ Str.nl))%list.
Proof. split; [reflexivity|]. split; reflexivity. Qed.

(** With templates that fail only before their first write, a rendering
    sends one status line and never attempts a second. *)
Lemma renderTemplate_single_status_line T tmpl p :
  fails_only_before_output T -> tmpl = "view" \/ tmpl = "edit" ->
  superfluous (renderTemplate T newResponse tmpl p) = [].
Proof.
  intros HT Htmpl. unfold renderTemplate, ExecuteTemplate.
  assert (Hl : exists t, Lookup T (tmpl +:+ ".html") = Some t
                         /\ (t = edit_html T \/ t = view_html T)).
  { destruct Htmpl as [-> | ->].
    - exists (view_html T). split; [reflexivity | now right].
    - exists (edit_html T). split; [reflexivity | now left]. }
  destruct Hl as (t & -> & Ht).
  destruct (t p) as [chunks [err|]] eqn:Hp.
  - rewrite (HT t p chunks err Ht Hp). reflexivity.
  - apply Writes_superfluous.
Qed.

(** X15: with templates that fail only before their first write, every run
    of a handler sends one status line and never attempts a second. *)
Lemma handlers_single_status_line T r W :
  fails_only_before_output T ->
  superfluous (viewHandler T newResponse r W).1 = []
  /\ superfluous (editHandler T newResponse r W).1 = []
  /\ superfluous (saveHandler newResponse r W).1 = [].
Proof.
  intros HT. unfold viewHandler, editHandler, saveHandler.
  destruct (getTitle newResponse r) as [w1 [t|e]] eqn:Hg.
  - apply getTitle_Ok in Hg as (-> & _).
    destruct (loadPage t W) as [W1 [p|e]];
      destruct (save _ W) as [W2 [err|]]; cbn [fst snd];
      rewrite ?Redirect_superfluous, ?Error_superfluous by reflexivity;
      repeat split; auto using renderTemplate_single_status_line.
  - unfold getTitle in Hg.
    destruct (FindStringSubmatch validPath (URL_Path r)); [discriminate|].
    injection Hg as <- _. repeat split; reflexivity.
Qed.

(** * Further properties of the code *)

(** ** File names *)

Lemma occurs_app c (a b : string) :
  Str.occurs c (a +:+ b) = Str.occurs c a || Str.occurs c b.
Proof.
  induction a as [|x a IH]; sapp; simpl; [reflexivity|].
  rewrite IH. now rewrite orb_assoc.
Qed.

Lemma alnum_all t : alnum t -> Str.all (in_class alnum_ranges) t = true.
Proof.
  unfold alnum. intros H. remember (ClassPlus alnum_ranges) as r eqn:Hr.
  induction H as [| | | | | rs c Hc | rs c a Hc Hm IH]; try discriminate;
    injection Hr as ->; cbn [Str.all]; rewrite Hc; [reflexivity | now apply IH].
Qed.

Lemma all_not_occurs (p : ascii -> bool) c s :
  Str.all p s = true -> p c = false -> Str.occurs c s = false.
Proof.
  intros Ha Hc. induction s as [|d s IH]; simpl in *; [reflexivity|].
  apply andb_prop in Ha as [Hd Hs]. rewrite (IH Hs), orb_false_r.
  destruct (Ascii.eqb c d) eqn:E; [|reflexivity].
  apply Ascii.eqb_eq in E. subst d. congruence.
Qed.

(** X1: [getTitle] returns a title exactly on the paths [/op/title] with
    [op] one of edit, save and view and [title] alphanumeric; the title is
    the one of the path and nothing is written to the response. *)
Theorem getTitle_Ok_iff (w : ResponseWriter) (r : Request) (t : string) :
  getTitle w r = (w, Ok t)
  <-> exists op, is_op op /\ alnum t /\ URL_Path r = "/" +:+ op +:+ "/" +:+ t.
Proof.
  split.
  - intros H. apply getTitle_Ok in H as (_ & Ht & op & Hop & Hp). eauto.
  - intros (op & Hop & Ht & Hp). now apply (getTitle_valid w r op t).
Qed.

(** X2: a title that [getTitle] returns is not empty and holds no slash, no
    dot and no NUL byte, so the file name [title + ".txt"] names an entry of
    the working directory: it has no slash and does not begin with a dot. *)
Theorem getTitle_file_name_stays_in_directory
    (w w' : ResponseWriter) (r : Request) (t : string) :
  getTitle w r = (w', Ok t) ->
  t <> ""
  /\ Str.occurs "/" t = false /\ Str.occurs "." t = false
  /\ Str.occurs "000" t = false
  /\ Str.occurs "/" (t +:+ ".txt") = false
  /\ Str.strip_prefix "." (t +:+ ".txt") = None.
Proof.
  intros H. apply getTitle_Ok in H as (_ & Ht & _).
  pose proof (alnum_not_empty t Ht) as Hne.
  pose proof (alnum_all t Ht) as Ha.
  assert (Hs : Str.occurs "/" t = false) by (now apply (all_not_occurs _ _ _ Ha)).
  assert (Hd : Str.occurs "." t = false) by (now apply (all_not_occurs _ _ _ Ha)).
  assert (Hz : Str.occurs "000" t = false) by (now apply (all_not_occurs _ _ _ Ha)).
  split; [exact Hne|]. split; [exact Hs|]. split; [exact Hd|].
  split; [exact Hz|]. split.
  - rewrite occurs_app, Hs. reflexivity.
  - destruct t as [|c t]; [congruence|]. sapp.
    cbn [Str.occurs] in Hd. cbn [Str.strip_prefix].
    destruct (Ascii.eqb "." c); [discriminate Hd | reflexivity].
Qed.

Lemma getTitle_file_name_stays_in_directory_witness :
  getTitle newResponse (get "/view/Foo1") = (newResponse, Ok "Foo1")
  /\ Str.occurs "/" ("Foo1" +:+ ".txt") = false.
Proof.
  assert (H : getTitle newResponse (get "/view/Foo1") = (newResponse, Ok "Foo1"))
    by reflexivity.
  split; [exact H|].
  exact (proj1 (proj2 (proj2 (proj2 (proj2
           (getTitle_file_name_stays_in_directory _ _ _ _ H)))))).
Defined.

(** ** File operations of the handlers *)

Lemma loadPage_trace t W :
  trace (loadPage t W).1 = (trace W ++ [SysReadFile (t +:+ ".txt")])%list.
Proof.
  unfold loadPage, ReadFile.
  destruct (files W !! (t +:+ ".txt")) as [[mode data|]|];
    [destruct (owner_may_read mode) | |
     destruct (name_fits (t +:+ ".txt"))]; reflexivity.
Qed.

Lemma loadPage_files t W : files (loadPage t W).1 = files W.
Proof.
  unfold loadPage. pose proof (ReadFile_files (t +:+ ".txt") W) as H.
  destruct (ReadFile (t +:+ ".txt") W) as [W1 [b|e]]; exact H.
Qed.

(** X3: on a valid path each handler performs exactly one file operation,
    on [title + ".txt"]: the view and edit handlers one [os.ReadFile] and no
    write, the save handler one [os.WriteFile] of the form value "body" with
    permission 0600 and no read.  This holds whichever of the three
    operation names the path carries. *)
Theorem handlers_one_file_operation
    (T : Templates) (r : Request) (W : World) (op t : string) :
  is_op op -> alnum t -> URL_Path r = "/" +:+ op +:+ "/" +:+ t ->
  trace (viewHandler T newResponse r W).2
  = (trace W ++ [SysReadFile (t +:+ ".txt")])%list
  /\ trace (editHandler T newResponse r W).2
     = (trace W ++ [SysReadFile (t +:+ ".txt")])%list
  /\ trace (saveHandler newResponse r W).2
     = (trace W ++ [SysWriteFile (t +:+ ".txt")
                      (list_byte_of_string (FormValue r "body")) o600])%list.
Proof.
  intros Hop Ht Hp. unfold viewHandler, editHandler, saveHandler.
  rewrite (getTitle_valid newResponse r op t Hp Hop Ht).
  pose proof (loadPage_trace t W) as Hl.
  pose proof (WriteFile_trace (t +:+ ".txt")
                (list_byte_of_string (FormValue r "body")) o600 W) as Hw.
  unfold save. cbn [Title Body].
  destruct (loadPage t W) as [W1 [p|e]];
    destruct (WriteFile _ _ _ W) as [W2 [err|]]; auto.
Qed.

Lemma handlers_one_file_operation_witness :
  is_op "save" /\ alnum "Foo" /\ URL_Path post_hello = "/" +:+ "save" +:+ "/" +:+ "Foo"
  /\ trace (viewHandler plain newResponse post_hello W_shared).2
     = (trace W_shared ++ [SysReadFile ("Foo" +:+ ".txt")])%list.
Proof.
  assert (Hop : is_op "save") by (right; left; reflexivity).
  assert (Ht : alnum "Foo") by (apply alnumb_alnum; reflexivity).
  assert (Hp : URL_Path post_hello = "/" +:+ "save" +:+ "/" +:+ "Foo") by reflexivity.
  split; [exact Hop|]. split; [exact Ht|]. split; [exact Hp|].
  exact (proj1 (handlers_one_file_operation plain post_hello W_shared _ _ Hop Ht Hp)).
Defined.

(** X4: the view and edit handlers never write.  On any request they
    leave every file as it was, and the file operations they add are none,
    on an invalid path, or the one [os.ReadFile] of [title + ".txt"]. *)
Theorem view_and_edit_never_write (T : Templates) (r : Request) (W : World) :
  files (viewHandler T newResponse r W).2 = files W
  /\ files (editHandler T newResponse r W).2 = files W
  /\ (trace (viewHandler T newResponse r W).2 = trace W
      /\ trace (editHandler T newResponse r W).2 = trace W
      \/ exists t,
           getTitle newResponse r = (newResponse, Ok t)
           /\ trace (viewHandler T newResponse r W).2
              = (trace W ++ [SysReadFile (t +:+ ".txt")])%list
           /\ trace (editHandler T newResponse r W).2
              = (trace W ++ [SysReadFile (t +:+ ".txt")])%list).
Proof.
  unfold viewHandler, editHandler.
  destruct (getTitle newResponse r) as [w1 [t|e]] eqn:Hg.
  - apply getTitle_Ok in Hg as (-> & _).
    pose proof (loadPage_files t W) as Hl.
    pose proof (loadPage_trace t W) as Ht.
    destruct (loadPage t W) as [W1 [p|e]]; cbn [fst snd] in *;
      (split; [exact Hl|]); (split; [exact Hl|]); right; exists t; auto.
  - split; [reflexivity|]. split; [reflexivity|]. left. split; reflexivity.
Qed.

(** ** Saving and loading together *)

Lemma loadPage_of_file t W mode data :
  files W !! (t +:+ ".txt") = Some (RegularFile mode data) ->
  owner_may_read mode = true ->
  loadPage t W = (record (SysReadFile (t +:+ ".txt")) W, Ok (mkPage t data)).
Proof.
  intros Hf Hr. unfold loadPage.
  now rewrite (ReadFile_readable _ _ _ _ Hf Hr).
Qed.

Lemma loadPage_after_save t b W W1 :
  save (mkPage t b) W = (W1, None) -> readable W1 (t +:+ ".txt") ->
  loadPage t W1 = (record (SysReadFile (t +:+ ".txt")) W1, Ok (mkPage t b)).
Proof.
  intros Hs (mode & data & Hf & Hr). unfold save in Hs. cbn [Title Body] in Hs.
  apply WriteFile_ok in Hs as (Hfiles & _).
  pose proof Hf as Hf'. rewrite Hfiles, lookup_insert_eq in Hf'.
  injection Hf' as _ <-. now apply (loadPage_of_file t W1 mode).
Qed.

(** X5: what the save handler stored is what the view and edit handlers
    show.  After a save request for a title whose file could be written and
    can be read, a later request for the same title renders the "view"
    template, and the "edit" template, with the page made of that title and
    of the form value "body" of the save request. *)
Theorem saved_page_is_rendered
    (T : Templates) (rs r : Request) (W : World) (op t : string) :
  URL_Path rs = "/save/" +:+ t -> alnum t ->
  is_op op -> URL_Path r = "/" +:+ op +:+ "/" +:+ t ->
  writable W (t +:+ ".txt") = true ->
  let W' := (saveHandler newResponse rs W).2 in
  readable W' (t +:+ ".txt") ->
  let p := mkPage t (list_byte_of_string (FormValue rs "body")) in
  (viewHandler T newResponse r W').1 = renderTemplate T newResponse "view" p
  /\ (editHandler T newResponse r W').1 = renderTemplate T newResponse "edit" p.
Proof.
  intros Hps Ht Hop Hp Hw W' Hr p.
  assert (Hs : save p W = (W', None)).
  { subst W'. unfold saveHandler.
    rewrite (getTitle_valid newResponse rs "save" t Hps
               (or_intror (or_introl eq_refl)) Ht).
    fold p. pose proof (proj2 (WriteFile_ok_iff (t +:+ ".txt") (Body p) o600 W) Hw)
      as Hok.
    change (WriteFile (t +:+ ".txt") (Body p) o600 W) with (save p W) in Hok.
    destruct (save p W) as [W1 [err|]]; [discriminate Hok | reflexivity]. }
  pose proof (loadPage_after_save t _ W W' Hs Hr) as Hl. fold p in Hl.
  unfold viewHandler, editHandler.
  rewrite (getTitle_valid newResponse r op t Hp Hop Ht), Hl. split; reflexivity.
Qed.

Lemma saved_page_is_rendered_witness :
  URL_Path post_hello = "/save/" +:+ "Foo" /\ alnum "Foo"
  /\ is_op "view" /\ URL_Path (get "/view/Foo") = "/" +:+ "view" +:+ "/" +:+ "Foo"
  /\ writable W_empty ("Foo" +:+ ".txt") = true
  /\ readable (saveHandler newResponse post_hello W_empty).2 ("Foo" +:+ ".txt")
  /\ (viewHandler plain newResponse (get "/view/Foo")
        (saveHandler newResponse post_hello W_empty).2).1
     = renderTemplate plain newResponse "view"
         (mkPage "Foo" (list_byte_of_string (FormValue post_hello "body"))).
Proof.
  assert (Hps : URL_Path post_hello = "/save/" +:+ "Foo") by reflexivity.
  assert (Ht : alnum "Foo") by (apply alnumb_alnum; reflexivity).
  assert (Hop : is_op "view") by (right; right; reflexivity).
  assert (Hp : URL_Path (get "/view/Foo") = "/" +:+ "view" +:+ "/" +:+ "Foo")
    by reflexivity.
  assert (Hw : writable W_empty ("Foo" +:+ ".txt") = true) by reflexivity.
  assert (Hr : readable (saveHandler newResponse post_hello W_empty).2
                 ("Foo" +:+ ".txt")).
  { exists o600, (bytes "hello"). split; reflexivity. }
  split; [exact Hps|]. split; [exact Ht|]. split; [exact Hop|].
  split; [exact Hp|]. split; [exact Hw|]. split; [exact Hr|].
  exact (proj1 (saved_page_is_rendered plain post_hello (get "/view/Foo") W_empty
                  "view" "Foo" Hps Ht Hop Hp Hw Hr)).
Defined.



(** X8: [loadPage] succeeds exactly when [title + ".txt"] is a regular file
    that the server may read, and then the page has the requested title and
    the content of the file as its body; it never changes a file. *)
Theorem loadPage_Ok_iff (t : string) (W : World) (p : Page) :
  ((loadPage t W).2 = Ok p
   <-> Title p = t
       /\ exists mode,
            files W !! (t +:+ ".txt") = Some (RegularFile mode (Body p))
            /\ owner_may_read mode = true)
  /\ files (loadPage t W).1 = files W.
Proof.
  split; [|apply loadPage_files]. split.
  - unfold loadPage, ReadFile.
    destruct (files W !! (t +:+ ".txt")) as [[mode data|]|];
      [destruct (owner_may_read mode) eqn:Hr | |
       destruct (name_fits (t +:+ ".txt"))]; cbn [snd];
      try discriminate.
    intros [= <-]. split; [reflexivity|]. eauto.
  - destruct p as [t' b]. cbn [Title Body]. intros (-> & mode & Hf & Hr).
    now rewrite (loadPage_of_file t W mode b Hf Hr).
Qed.

(** ** Answers of the handlers *)

Lemma no_location_sent_header w : no_location w -> sent_header w "Location" = None.
Proof.
  intros [Hh Hs]. unfold sent_header.
  destruct (sent w) as [[c h]|] eqn:E; [now apply (Hs c h) | exact Hh].
Qed.

Lemma no_location_Write w d : no_location w -> no_location (Write w d).
Proof.
  intros [Hh Hs]. unfold Write, WriteHeader, no_location.
  destruct (sent w) as [[c h]|] eqn:E; cbn [header sent]; rewrite ?E;
    (split; [exact Hh|]); intros c' h' [= <- <-]; eauto.
Qed.

Lemma no_location_Writes chunks w :
  no_location w -> no_location (fold_left Write chunks w).
Proof.
  revert w. induction chunks as [|d chunks IH]; intros w H; simpl; [exact H|].
  apply IH. now apply no_location_Write.
Qed.

Lemma no_location_Error w msg code : no_location w -> no_location (HTTP.Error w msg code).
Proof.
  intros [Hh Hs]. unfold HTTP.Error, Fprintln. apply no_location_Write.
  unfold WriteHeader, Header_Set, Header_Del, no_location. cbn [header sent].
  assert (Hh' : <["X-Content-Type-Options":="nosniff"]>
                  (<["Content-Type":="text/plain; charset=utf-8"]>
                     (delete "Content-Length" (header w))) !! "Location" = None)
    by (rewrite !lookup_insert_ne, lookup_delete_ne by discriminate; exact Hh).
  destruct (sent w) as [[c h]|] eqn:E; cbn [header sent]; rewrite ?E;
    (split; [exact Hh'|]); intros c' h' [= <- <-]; eauto.
Qed.

Lemma renderTemplate_no_location T tmpl p :
  no_location (renderTemplate T newResponse tmpl p).
Proof.
  assert (H0 : no_location newResponse) by (split; [reflexivity | discriminate]).
  unfold renderTemplate, ExecuteTemplate.
  destruct (Lookup T (tmpl +:+ ".html")) as [t|].
  - destruct (t p) as [chunks [err|]].
    + now apply no_location_Error, no_location_Writes.
    + now apply no_location_Writes.
  - now apply no_location_Error.
Qed.

(** X9: every Location a handler sends is a path that [validPath] accepts,
    with the title of the request: the view handler redirects to
    [/edit/<title>] only, the save handler to [/view/<title>] only, and the
    edit handler never redirects.  Following a redirect therefore never
    ends in the 404 of [getTitle]. *)
Theorem redirects_lead_to_valid_paths
    (T : Templates) (r : Request) (W : World) (l : string) :
  (sent_header (viewHandler T newResponse r W).1 "Location" = Some l ->
   exists t, getTitle newResponse r = (newResponse, Ok t)
             /\ l = "/edit/" +:+ t /\ matches validPath l)
  /\ (sent_header (saveHandler newResponse r W).1 "Location" = Some l ->
      exists t, getTitle newResponse r = (newResponse, Ok t)
                /\ l = "/view/" +:+ t /\ matches validPath l)
  /\ sent_header (editHandler T newResponse r W).1 "Location" = None.
Proof.
  assert (H404 : sent_header (NotFound newResponse r) "Location" = None)
    by reflexivity.
  unfold viewHandler, editHandler, saveHandler.
  destruct (getTitle newResponse r) as [w1 [t|e]] eqn:Hg.
  - apply getTitle_Ok in Hg as (-> & Ht & _).
    split; [|split].
    + destruct (loadPage t W) as [W1 [p|e]]; cbn [fst].
      * rewrite (no_location_sent_header _ (renderTemplate_no_location T "view" p)).
        discriminate.
      * rewrite Redirect_location by reflexivity. intros [= <-].
        exists t. split; [reflexivity|]. split; [reflexivity|].
        apply (matches_validPath_intro "edit" t); [now left | exact Ht].
    + destruct (save _ W) as [W1 [err|]]; cbn [fst].
      * rewrite Error_no_location by reflexivity. discriminate.
      * rewrite Redirect_location by reflexivity. intros [= <-].
        exists t. split; [reflexivity|]. split; [reflexivity|].
        apply (matches_validPath_intro "view" t);
          [right; now right | exact Ht].
    + destruct (loadPage t W) as [W1 [p|e]]; cbn [fst];
        apply no_location_sent_header, renderTemplate_no_location.
  - unfold getTitle in Hg.
    destruct (FindStringSubmatch validPath (URL_Path r)); [discriminate|].
    injection Hg as <- _. cbn [fst]. rewrite H404.
    split; [discriminate|]. split; [discriminate | reflexivity].
Qed.

(** X10: when [title + ".txt"] cannot be opened for writing, the save
    handler answers 500 and the body gives the client the file name and the
    reason: "open <title>.txt: is a directory" for a directory, "open
    <title>.txt: file name too long" for a new name of more than 255 bytes,
    "open <title>.txt: permission denied" otherwise, each followed by a line
    feed.  No file changes. *)
Theorem saveHandler_failure_names_the_file (r : Request) (W : World) (t : string) :
  URL_Path r = "/save/" +:+ t -> alnum t ->
  writable W (t +:+ ".txt") = false ->
  let answer := (saveHandler newResponse r W).1 in
  let reason := match files W !! (t +:+ ".txt") with
                | Some Directory => "is a directory"
                | Some (RegularFile _ _) => "permission denied"
                | None => if name_fits (t +:+ ".txt")
                          then "permission denied"
                          else "file name too long"
                end in
  status answer = StatusInternalServerError
  /\ body answer
     = list_byte_of_string ("open " +:+ t +:+ ".txt: " +:+ reason +:+ Str.nl)
  /\ files (saveHandler newResponse r W).2 = files W.
Proof.
  intros Hp Ht Hw answer reason. subst answer reason. unfold saveHandler.
  rewrite (getTitle_valid newResponse r "save" t Hp (or_intror (or_introl eq_refl)) Ht).
  unfold save, WriteFile, writable in *. cbn [Title Body].
  destruct (files W !! (t +:+ ".txt")) as [[mode old|]|];
    [rewrite Hw | |
     destruct (name_fits (t +:+ ".txt")); cbn [negb andb] in *; [rewrite Hw|]];
    cbn [fst snd];
    (split; [reflexivity|]); (split; [|reflexivity]);
    rewrite Error_body; cbn [body newResponse app Errors.Error Errno_Error];
    now rewrite !app_assoc.
Qed.

Lemma saveHandler_failure_names_the_file_witness :
  URL_Path post_hello = "/save/" +:+ "Foo" /\ alnum "Foo"
  /\ writable W_dir ("Foo" +:+ ".txt") = false
  /\ status (saveHandler newResponse post_hello W_dir).1 = StatusInternalServerError.
Proof.
  assert (Hp : URL_Path post_hello = "/save/" +:+ "Foo") by reflexivity.
  assert (Ht : alnum "Foo") by (apply alnumb_alnum; reflexivity).
  assert (Hw : writable W_dir ("Foo" +:+ ".txt") = false) by reflexivity.
  split; [exact Hp|]. split; [exact Ht|]. split; [exact Hw|].
  exact (proj1 (saveHandler_failure_names_the_file post_hello W_dir "Foo" Hp Ht Hw)).
Defined.

Lemma Writes_body chunks w :
  body (fold_left Write chunks w) = (body w ++ concat chunks)%list.
Proof.
  revert w. induction chunks as [|d chunks IH]; intros w; simpl.
  - now rewrite List.app_nil_r.
  - rewrite IH. unfold Write, WriteHeader.
    destruct (sent w); cbn [body]; now rewrite <- List.app_assoc.
Qed.

Lemma Writes_status chunks : status (fold_left Write chunks newResponse) = StatusOK.
Proof.
  destruct chunks as [|d chunks]; [reflexivity|]. simpl. unfold status.
  now rewrite (Writes_sent_keeps chunks _ StatusOK ∅).
Qed.

(** X11: when the template runs to its end, [renderTemplate] answers 200
    with exactly the chunks the template wrote, in order, as the body; no
    error text is added and no second status line is attempted. *)
Theorem renderTemplate_success_is_the_output
    (T : Templates) (tmpl : string) (t : Template) (p : Page)
    (chunks : list (list byte)) :
  Lookup T (tmpl +:+ ".html") = Some t -> t p = (chunks, None) ->
  let answer := renderTemplate T newResponse tmpl p in
  status answer = StatusOK
  /\ body answer = concat chunks
  /\ superfluous answer = []
  /\ sent_header answer "Location" = None.
Proof.
  intros Hl Hp answer.
  pose proof (renderTemplate_no_location T tmpl p) as Hn. fold answer in Hn.
  subst answer. unfold renderTemplate, ExecuteTemplate in *. rewrite Hl, Hp in *.
  split; [apply Writes_status|]. split; [apply Writes_body|].
  split; [apply Writes_superfluous | now apply no_location_sent_header].
Qed.

Lemma renderTemplate_success_is_the_output_witness :
  Lookup plain ("view" +:+ ".html") = Some (view_html plain)
  /\ view_html plain (mkPage "Foo" (bytes "hello"))
     = ([bytes "<h1>"; bytes "Foo"; bytes "</h1><div>"; bytes "hello"; bytes "</div>"],
        None)
  /\ status (renderTemplate plain newResponse "view" (mkPage "Foo" (bytes "hello")))
     = StatusOK.
Proof.
  assert (Hl : Lookup plain ("view" +:+ ".html") = Some (view_html plain))
    by reflexivity.
  assert (Hp : view_html plain (mkPage "Foo" (bytes "hello"))
               = ([bytes "<h1>"; bytes "Foo"; bytes "</h1><div>"; bytes "hello";
                   bytes "</div>"], None)) by reflexivity.
  split; [exact Hl|]. split; [exact Hp|].
  exact (proj1 (renderTemplate_success_is_the_output plain "view" _ _ _ Hl Hp)).
Defined.

Lemma renderTemplate_status T tmpl p :
  status (renderTemplate T newResponse tmpl p) = StatusOK
  \/ status (renderTemplate T newResponse tmpl p) = StatusInternalServerError.
Proof.
  unfold renderTemplate, ExecuteTemplate.
  destruct (Lookup T (tmpl +:+ ".html")) as [t|]; [|right; reflexivity].
  destruct (t p) as [[|c chunks] [err|]].
  - right. reflexivity.
  - left. reflexivity.
  - left.
    assert (Hs : sent (fold_left Write (c :: chunks) newResponse)
                 = Some (StatusOK, ∅))
      by (simpl; now apply Writes_sent_keeps).
    now destruct (Error_too_late _ (Errors.Error err) StatusInternalServerError
                    _ _ Hs).
  - left. apply Writes_status.
Qed.

(** X12: whatever the request, the directory and the templates, each
    handler ends with one of four status codes: 200, 302, 404 or 500.  The
    edit handler never answers 302 and the save handler never answers 200. *)
Theorem handlers_status_codes (T : Templates) (r : Request) (W : World) :
  In (status (viewHandler T newResponse r W).1) [200; 302; 404; 500]
  /\ In (status (editHandler T newResponse r W).1) [200; 404; 500]
  /\ In (status (saveHandler newResponse r W).1) [302; 404; 500].
Proof.
  unfold viewHandler, editHandler, saveHandler.
  destruct (getTitle newResponse r) as [w1 [t|e]] eqn:Hg.
  - apply getTitle_Ok in Hg as (-> & _).
    split; [|split].
    + destruct (loadPage t W) as [W1 [p|e]]; cbn [fst].
      * destruct (renderTemplate_status T "view" p) as [-> | ->]; simpl; auto.
      * rewrite Redirect_status by reflexivity. simpl. auto.
    + destruct (loadPage t W) as [W1 [p|e]]; cbn [fst];
        match goal with
        | |- context [renderTemplate T newResponse "edit" ?q] =>
            destruct (renderTemplate_status T "edit" q) as [-> | ->]
        end; simpl; auto.
    + destruct (save _ W) as [W1 [err|]]; cbn [fst].
      * rewrite Error_status by reflexivity. simpl. auto.
      * rewrite Redirect_status by reflexivity. simpl. auto.
  - unfold getTitle in Hg.
    destruct (FindStringSubmatch validPath (URL_Path r)); [discriminate|].
    injection Hg as <- _. cbn [fst].
    change (status (NotFound newResponse r)) with 404. simpl. auto.
Qed.

Lemma Redirect_method_ext w r1 r2 url code :
  Method r1 = Method r2 -> Redirect w r1 url code = Redirect w r2 url code.
Proof. intros H. unfold Redirect. now rewrite H. Qed.

(** X13: the handlers do not compare the operation name of the path with
    their own.  Two requests of the same method whose paths carry the same
    title under any two of the names edit, save and view get the same answer
    and the same file operations from the view handler, and from the edit
    handler; the save handler likewise when the form value "body" agrees.
    So the save handler run on [/view/Foo] saves Foo, and the view handler
    run on [/save/Foo] only shows it. *)
Theorem handlers_ignore_operation_name
    (T : Templates) (r1 r2 : Request) (W : World) (op1 op2 t : string) :
  is_op op1 -> is_op op2 -> alnum t ->
  URL_Path r1 = "/" +:+ op1 +:+ "/" +:+ t ->
  URL_Path r2 = "/" +:+ op2 +:+ "/" +:+ t ->
  Method r1 = Method r2 ->
  viewHandler T newResponse r1 W = viewHandler T newResponse r2 W
  /\ editHandler T newResponse r1 W = editHandler T newResponse r2 W
  /\ (FormValue r1 "body" = FormValue r2 "body" ->
      saveHandler newResponse r1 W = saveHandler newResponse r2 W).
Proof.
  intros Ho1 Ho2 Ht Hp1 Hp2 Hm. unfold viewHandler, editHandler, saveHandler.
  rewrite (getTitle_valid newResponse r1 op1 t Hp1 Ho1 Ht),
          (getTitle_valid newResponse r2 op2 t Hp2 Ho2 Ht).
  split; [|split].
  - destruct (loadPage t W) as [W1 [p|e]]; [reflexivity|].
    now rewrite (Redirect_method_ext _ r1 r2).
  - reflexivity.
  - intros ->. destruct (save _ W) as [W1 [err|]]; [reflexivity|].
    now rewrite (Redirect_method_ext _ r1 r2).
Qed.

Lemma handlers_ignore_operation_name_witness :
  is_op "save" /\ is_op "view" /\ alnum "Foo"
  /\ URL_Path (get "/save/Foo") = "/" +:+ "save" +:+ "/" +:+ "Foo"
  /\ URL_Path (get "/view/Foo") = "/" +:+ "view" +:+ "/" +:+ "Foo"
  /\ Method (get "/save/Foo") = Method (get "/view/Foo")
  /\ viewHandler plain newResponse (get "/save/Foo") W_shared
     = viewHandler plain newResponse (get "/view/Foo") W_shared.
Proof.
  assert (Ho1 : is_op "save") by (right; left; reflexivity).
  assert (Ho2 : is_op "view") by (right; right; reflexivity).
  assert (Ht : alnum "Foo") by (apply alnumb_alnum; reflexivity).
  assert (Hp1 : URL_Path (get "/save/Foo") = "/" +:+ "save" +:+ "/" +:+ "Foo")
    by reflexivity.
  assert (Hp2 : URL_Path (get "/view/Foo") = "/" +:+ "view" +:+ "/" +:+ "Foo")
    by reflexivity.
  assert (Hm : Method (get "/save/Foo") = Method (get "/view/Foo")) by reflexivity.
  split; [exact Ho1|]. split; [exact Ho2|]. split; [exact Ht|].
  split; [exact Hp1|]. split; [exact Hp2|]. split; [exact Hm|].
  exact (proj1 (handlers_ignore_operation_name plain _ _ W_shared _ _ _
                  Ho1 Ho2 Ht Hp1 Hp2 Hm)).
Defined.

(** ** The greeting handler *)

Lemma list_byte_of_string_app (a b : string) :
  list_byte_of_string (a +:+ b)
  = (list_byte_of_string a ++ list_byte_of_string b)%list.
Proof.
  induction a as [|c a IH]; sapp; [reflexivity|].
  change (list_byte_of_string (String c (a +:+ b)))
    with (byte_of_ascii c :: list_byte_of_string (a +:+ b)).
  now rewrite IH.
Qed.

(** X14: [handler] panics on the empty path and on no other.  On a path of
    at least one byte it answers 200 with the greeting around the path less
    its first byte, whatever that byte is, copied byte for byte without any
    escaping. *)
Theorem handler_echoes_the_path (r : Request) :
  (handler newResponse r = None <-> URL_Path r = "")
  /\ forall c rest, URL_Path r = String c rest ->
       exists answer,
         handler newResponse r = Some answer
         /\ status answer = StatusOK
         /\ body answer
            = (list_byte_of_string "Hi there, I Love this go "
                 ++ list_byte_of_string rest ++ list_byte_of_string "!")%list
         /\ superfluous answer = [].
Proof.
  unfold handler. split.
  - destruct (URL_Path r); split; congruence.
  - intros c rest ->. eexists. split; [reflexivity|].
    split; [reflexivity|]. split; [|reflexivity].
    unfold Write. cbn [body sent newResponse WriteHeader app].
    now rewrite !list_byte_of_string_app.
Qed.

Lemma handler_echoes_the_path_witness :
  URL_Path (get "/<b>") = String "/" "<b>"
  /\ exists answer,
       handler newResponse (get "/<b>") = Some answer
       /\ status answer = StatusOK
       /\ body answer
          = (list_byte_of_string "Hi there, I Love this go "
               ++ list_byte_of_string "<b>" ++ list_byte_of_string "!")%list
       /\ superfluous answer = [].
Proof.
  assert (Hp : URL_Path (get "/<b>") = String "/" "<b>") by reflexivity.
  split; [exact Hp|].
  exact (proj2 (handler_echoes_the_path (get "/<b>")) "/"%char "<b>" Hp).
Defined.

Lemma plain_fails_only_before_output : fails_only_before_output plain.
Proof. intros t p chunks err [-> | ->] H; discriminate H. Qed.

Lemma handlers_single_status_line_witness :
  fails_only_before_output plain
  /\ superfluous (viewHandler plain newResponse (get "/view/Foo") W_shared).1 = [].
Proof.
  split; [exact plain_fails_only_before_output|].
  exact (proj1 (handlers_single_status_line plain (get "/view/Foo") W_shared
                  plain_fails_only_before_output)).
Defined.

Lemma renderTemplate_fails_before_output_witness :
  Lookup failing_at_once ("view" +:+ ".html") = Some (view_html failing_at_once)
  /\ view_html failing_at_once (mkPage "Foo" []) = ([], Some nope_error)
  /\ status (renderTemplate failing_at_once newResponse "view" (mkPage "Foo" []))
     = StatusInternalServerError.
Proof.
  assert (Hl : Lookup failing_at_once ("view" +:+ ".html")
               = Some (view_html failing_at_once)) by reflexivity.
  assert (Hp : view_html failing_at_once (mkPage "Foo" []) = ([], Some nope_error))
    by reflexivity.
  split; [exact Hl|]. split; [exact Hp|].
  exact (proj2 (renderTemplate_fails_before_output failing_at_once "view" _ _ _ Hl Hp)).
Defined.

(** ** The edit handler *)

Lemma renderTemplate_answer T tmpl t p chunks err :
  Lookup T (tmpl +:+ ".html") = Some t -> t p = (chunks, err) ->
  let answer := renderTemplate T newResponse tmpl p in
  body answer
  = (concat chunks
       ++ match err with
          | None => []
          | Some e => list_byte_of_string (Errors.Error e +:+ Str.nl)
          end)%list
  /\ status answer
     = match err, chunks with
       | Some _, [] => StatusInternalServerError
       | _, _ => StatusOK
       end
  /\ superfluous answer
     = match err, chunks with
       | Some _, _ :: _ => [StatusInternalServerError]
       | _, _ => []
       end.
Proof.
  intros Hl Hp answer. subst answer. destruct err as [e|].
  - split.
    + unfold renderTemplate, ExecuteTemplate. rewrite Hl, Hp.
      now rewrite Error_body, Writes_body.
    + destruct chunks as [|c chunks].
      * unfold renderTemplate, ExecuteTemplate. rewrite Hl, Hp.
        split; reflexivity.
      * exact (renderTemplate_fails_after_output T tmpl t p c chunks e Hl Hp).
  - unfold renderTemplate, ExecuteTemplate. rewrite Hl, Hp.
    rewrite Writes_body, Writes_status, Writes_superfluous, List.app_nil_r.
    destruct chunks; auto.
Qed.

(** C5: on a valid request [/edit/<title>] the edit handler renders the
    "edit" template in both outcomes of the load: with the loaded page when
    there is one, and otherwise with the page that has the requested title
    and an empty body.  The answer is what executing [edit.html] on that page
    writes: when the template runs to its end, 200 with its output as the
    body, also when the load failed; the only error that can go out is the
    template's own.  No file changes and no Location is sent. *)
Theorem editHandler_renders_loaded_or_empty
    (T : Templates) (r : Request) (W : World) (t : string) :
  URL_Path r = "/edit/" +:+ t -> alnum t ->
  let answer := (editHandler T newResponse r W).1 in
  let p := match (loadPage t W).2 with
           | Err _ => mkPage t []
           | Ok q => q
           end in
  match (loadPage t W).2 with
  | Err _ => answer = renderTemplate T newResponse "edit" (mkPage t [])
  | Ok q => Title q = t /\ answer = renderTemplate T newResponse "edit" q
  end
  /\ files (editHandler T newResponse r W).2 = files W
  /\ Title p = t
  /\ sent_header answer "Location" = None
  /\ forall chunks err, edit_html T p = (chunks, err) ->
       body answer
       = (concat chunks
            ++ match err with
               | None => []
               | Some e => list_byte_of_string (Errors.Error e +:+ Str.nl)
               end)%list
       /\ status answer
          = match err, chunks with
            | Some _, [] => StatusInternalServerError
            | _, _ => StatusOK
            end
       /\ superfluous answer
          = match err, chunks with
            | Some _, _ :: _ => [StatusInternalServerError]
            | _, _ => []
            end.
Proof.
  intros Hp Ht answer p. subst answer p. unfold editHandler.
  rewrite (getTitle_valid newResponse r "edit" t Hp (or_introl eq_refl) Ht).
  unfold loadPage. pose proof (ReadFile_files (t +:+ ".txt") W) as Hf.
  destruct (ReadFile (t +:+ ".txt") W) as [W2 [b|e]]; cbn [fst snd Title] in *;
    (split; [auto|]); (split; [exact Hf|]); (split; [reflexivity|]);
    (split; [apply no_location_sent_header, renderTemplate_no_location|]);
    intros chunks err Hc;
    exact (renderTemplate_answer T "edit" (edit_html T) _ chunks err eq_refl Hc).
Qed.

Lemma editHandler_renders_loaded_or_empty_witness :
  URL_Path (get "/edit/NoFile") = "/edit/" +:+ "NoFile" /\ alnum "NoFile"
  /\ edit_html plain (mkPage "NoFile" [])
     = ([bytes "<h1>Editing "; bytes "NoFile"; bytes "</h1><textarea>"; [];
         bytes "</textarea>"], None)
  /\ (editHandler plain newResponse (get "/edit/NoFile") W_shared).1
     = renderTemplate plain newResponse "edit" (mkPage "NoFile" [])
  /\ body (editHandler plain newResponse (get "/edit/NoFile") W_shared).1
     = bytes "<h1>Editing NoFile</h1><textarea></textarea>"
  /\ status (editHandler plain newResponse (get "/edit/NoFile") W_shared).1
     = StatusOK.
Proof.
  assert (Hp : URL_Path (get "/edit/NoFile") = "/edit/" +:+ "NoFile") by reflexivity.
  assert (Ht : alnum "NoFile") by (apply alnumb_alnum; reflexivity).
  assert (Hc : edit_html plain (mkPage "NoFile" [])
               = ([bytes "<h1>Editing "; bytes "NoFile"; bytes "</h1><textarea>"; [];
                   bytes "</textarea>"], None)) by reflexivity.
  split; [exact Hp|]. split; [exact Ht|]. split; [exact Hc|].
  pose proof (editHandler_renders_loaded_or_empty
                plain (get "/edit/NoFile") W_shared "NoFile" Hp Ht) as H.
  destruct H as (H1 & _ & _ & _ & H5).
  split; [exact H1|].
  destruct (H5 _ _ Hc) as (Hb & Hs & _).
  split; [exact Hb | exact Hs].
Defined.
